(** * Periodic-investment analyzer: a shallow embedding of
      [MIP_analyzer/stock_analyzer.py] and the properties of its core.

    The development follows the Python source function by function.
    Conventions of the embedding:

    - a pandas [Timestamp] is a record of calendar fields (year, month, day)
      and the nanoseconds elapsed since midnight; comparisons are
      lexicographic on these fields, the calendar is proleptic Gregorian and
      unbounded above (the finite range of [Timestamp] is not modelled);
    - Python and numpy floats are exact rationals [Q] extended with the
      three IEEE special values; rounding and overflow are not modelled,
      division by zero follows numpy (a special value, no exception);
    - exceptions are explicit: a fallible expression returns [option] or
      [pyresult]; the [while] loop of [simulate_investment] takes fuel and
      returns [None] only when the fuel is exhausted. *)

From Stdlib Require Import ZArith QArith Qround String List Bool Lia.
Import ListNotations.
Open Scope Z_scope.

(* ================================================================= *)
(** * Part I: definitions *)
(* ================================================================= *)

(** ** Exceptions *)

Inductive pyexn : Type :=
| IndexError
| ValueError.

Inductive pyresult (A : Type) : Type :=
| Return (a : A)
| Raise (e : pyexn).

Arguments Return {A} a.
Arguments Raise {A} e.

(** [try: body except ValueError: handler], where [None] stands for a raised
    [ValueError]. *)
Definition try_except {A : Type} (body handler : option A) : option A :=
  match body with
  | Some v => Some v
  | None => handler
  end.

(** ** Calendar and timestamps *)

Definition NS_PER_SECOND : Z := 1000000000.
Definition NS_PER_DAY : Z := 86400 * NS_PER_SECOND.

Record Timestamp : Type := mkTimestamp {
  year : Z;
  month : Z;
  day : Z;
  nanos : Z  (* nanoseconds since midnight *)
}.

Definition is_leap (y : Z) : bool :=
  (y mod 4 =? 0) && (negb (y mod 100 =? 0) || (y mod 400 =? 0)).

Definition days_in_month (y m : Z) : Z :=
  match m with
  | 1 => 31
  | 2 => if is_leap y then 29 else 28
  | 3 => 31
  | 4 => 30
  | 5 => 31
  | 6 => 30
  | 7 => 31
  | 8 => 31
  | 9 => 30
  | 10 => 31
  | 11 => 30
  | 12 => 31
  | _ => 0
  end.

(** The field check made by the [datetime] constructor. *)
Definition check_date_fields (y m d : Z) : bool :=
  (1 <=? y) && (1 <=? m) && (m <=? 12) && (1 <=? d) && (d <=? days_in_month y m).

Definition valid_ts (t : Timestamp) : Prop :=
  check_date_fields (year t) (month t) (day t) = true /\
  0 <= nanos t < NS_PER_DAY.

(** [t.replace(year=..., month=..., day=...)]: an absent keyword keeps the
    field; [None] is the [ValueError] of an impossible date. *)
Definition replace (t : Timestamp) (new_year new_month new_day : option Z)
  : option Timestamp :=
  let y := match new_year with Some v => v | None => year t end in
  let m := match new_month with Some v => v | None => month t end in
  let d := match new_day with Some v => v | None => day t end in
  if check_date_fields y m d then Some (mkTimestamp y m d (nanos t)) else None.

(** Comparison of two timestamps, field by field. *)
Definition ts_compare (a b : Timestamp) : comparison :=
  match year a ?= year b with
  | Eq =>
    match month a ?= month b with
    | Eq =>
      match day a ?= day b with
      | Eq => nanos a ?= nanos b
      | c => c
      end
    | c => c
    end
  | c => c
  end.

Definition ts_leb (a b : Timestamp) : bool :=
  match ts_compare a b with Gt => false | _ => true end.
Definition ts_ltb (a b : Timestamp) : bool :=
  match ts_compare a b with Lt => true | _ => false end.
Definition ts_geb (a b : Timestamp) : bool := ts_leb b a.
Definition ts_gtb (a b : Timestamp) : bool := ts_ltb b a.

(** The day after [t], same time of day. *)
Definition next_day (t : Timestamp) : Timestamp :=
  if day t <? days_in_month (year t) (month t) then
    mkTimestamp (year t) (month t) (day t + 1) (nanos t)
  else if month t <? 12 then
    mkTimestamp (year t) (month t + 1) 1 (nanos t)
  else
    mkTimestamp (year t + 1) 1 1 (nanos t).

Fixpoint add_days (n : nat) (t : Timestamp) : Timestamp :=
  match n with
  | O => t
  | S n' => next_day (add_days n' t)
  end.

(** [timedelta(days=d, hours=h, minutes=m)], in nanoseconds. *)
Definition timedelta (days hours minutes : Z) : Z :=
  ((days * 24 + hours) * 60 + minutes) * 60 * NS_PER_SECOND.

(** [t + delta] for a non-negative [delta]: the time of day wraps at
    midnight and the date moves on by the days carried. *)
Definition add_timedelta (t : Timestamp) (delta : Z) : Timestamp :=
  let total := nanos t + delta in
  let t' := add_days (Z.to_nat (total / NS_PER_DAY)) t in
  mkTimestamp (year t') (month t') (day t') (total mod NS_PER_DAY).

(** Proleptic Gregorian ordinal of a date, as [datetime.toordinal]. *)
Definition days_before_year (y : Z) : Z :=
  let y1 := y - 1 in
  y1 * 365 + y1 / 4 - y1 / 100 + y1 / 400.

Definition days_before_month (y m : Z) : Z :=
  match m with
  | 1 => 0
  | 2 => 31
  | 3 => 59
  | 4 => 90
  | 5 => 120
  | 6 => 151
  | 7 => 181
  | 8 => 212
  | 9 => 243
  | 10 => 273
  | 11 => 304
  | 12 => 334
  | _ => 0
  end + (if (2 <? m) && is_leap y then 1 else 0).

Definition toordinal (t : Timestamp) : Z :=
  days_before_year (year t) + days_before_month (year t) (month t) + day t.

(** The position of a timestamp on the time line, in nanoseconds. *)
Definition ts_value (t : Timestamp) : Z :=
  toordinal t * NS_PER_DAY + nanos t.

(** [(a - b).total_seconds() / 60] *)
Definition minutes_between (a b : Timestamp) : Q :=
  (inject_Z (ts_value a - ts_value b) / inject_Z NS_PER_SECOND / 60)%Q.

(** ** Numbers: exact rationals with the IEEE special values *)

Inductive xnum : Type :=
| Fin (q : Q)
| PInf
| NInf
| NaN.

Definition Qsign (q : Q) : comparison := (q ?= 0)%Q.

Definition Qltb (a b : Q) : bool :=
  match (a ?= b)%Q with Lt => true | _ => false end.

Definition xopp (a : xnum) : xnum :=
  match a with
  | Fin x => Fin (- x)%Q
  | PInf => NInf
  | NInf => PInf
  | NaN => NaN
  end.

Definition xadd (a b : xnum) : xnum :=
  match a, b with
  | NaN, _ | _, NaN => NaN
  | Fin x, Fin y => Fin (x + y)%Q
  | PInf, NInf | NInf, PInf => NaN
  | PInf, _ | _, PInf => PInf
  | NInf, _ | _, NInf => NInf
  end.

Definition xsub (a b : xnum) : xnum := xadd a (xopp b).

(** An infinity of sign [pos] scaled by a finite factor. *)
Definition inf_scaled (pos : bool) (x : Q) : xnum :=
  match Qsign x with
  | Eq => NaN
  | Gt => if pos then PInf else NInf
  | Lt => if pos then NInf else PInf
  end.

Definition xmul (a b : xnum) : xnum :=
  match a, b with
  | NaN, _ | _, NaN => NaN
  | Fin x, Fin y => Fin (x * y)%Q
  | Fin x, PInf | PInf, Fin x => inf_scaled true x
  | Fin x, NInf | NInf, Fin x => inf_scaled false x
  | PInf, PInf | NInf, NInf => PInf
  | PInf, NInf | NInf, PInf => NInf
  end.

Definition xdiv (a b : xnum) : xnum :=
  match a, b with
  | NaN, _ | _, NaN => NaN
  | Fin x, Fin y =>
    match Qsign y with
    | Eq =>
      match Qsign x with
      | Eq => NaN
      | Gt => PInf
      | Lt => NInf
      end
    | _ => Fin (x / y)%Q
    end
  | Fin _, PInf | Fin _, NInf => Fin 0
  | PInf, Fin y => match Qsign y with Lt => NInf | _ => PInf end
  | NInf, Fin y => match Qsign y with Lt => PInf | _ => NInf end
  | PInf, PInf | PInf, NInf | NInf, PInf | NInf, NInf => NaN
  end.

(** [a < b]; every comparison with [NaN] is false. *)
Definition xltb (a b : xnum) : bool :=
  match a, b with
  | NaN, _ | _, NaN => false
  | Fin x, Fin y => Qltb x y
  | NInf, Fin _ | NInf, PInf | Fin _, PInf => true
  | _, _ => false
  end.

Definition xgtb (a b : xnum) : bool := xltb b a.

(** Numerical equality: rationals up to [Qeq], special values by name. *)
Definition xeq (a b : xnum) : Prop :=
  match a, b with
  | Fin x, Fin y => (x == y)%Q
  | PInf, PInf | NInf, NInf | NaN, NaN => True
  | _, _ => False
  end.

Definition is_nan (a : xnum) : bool :=
  match a with NaN => true | _ => false end.

(** [int(x)] of a float: truncation towards zero. *)
Definition py_int (x : Q) : Z := Z.quot (Qnum x) (Zpos (Qden x)).

(** ** Sequences *)

(** [l[i]] for a Python integer index: negative indices count from the end,
    anything else out of range is an [IndexError]. *)
Definition py_index {A : Type} (l : list A) (i : Z) : pyresult A :=
  let n := Z.of_nat (length l) in
  let j := if i <? 0 then i + n else i in
  if (0 <=? j) && (j <? n) then
    match nth_error l (Z.to_nat j) with
    | Some x => Return x
    | None => Raise IndexError
    end
  else Raise IndexError.

(** [for i in indices: state = body(i, state)], stopping at the first
    exception. *)
Fixpoint for_each {I S : Type} (indices : list I)
    (body : I -> S -> pyresult S) (s : S) : pyresult S :=
  match indices with
  | [] => Return s
  | i :: rest =>
    match body i s with
    | Return s' => for_each rest body s'
    | Raise e => Raise e
    end
  end.

(** [range(a, b)] *)
Definition range (a b : nat) : list nat := seq a (b - a).

(** [sum(xs)] of Python floats: left to right from [0]. *)
Definition py_sum (xs : list Q) : Q := fold_left Qplus xs 0%Q.

(** ** The data frame *)

Record PricePoint : Type := mkPricePoint {
  Date : Timestamp;
  Open : Q;
  High : Q;
  Low : Q;
  Close : Q;
  Volume : Q
}.

Definition DataFrame : Type := list PricePoint.

Record StockInvestmentAnalyzer : Type := mkAnalyzer {
  commission_rate : Q
}.

Open Scope string_scope.

(** ** [detect_data_granularity] *)

Definition detect_data_granularity (df : DataFrame) : pyresult string :=
  if (length df <? 2)%nat then Return "unknown"
  else
    let sample_size := Nat.min 100 (length df) in
    match
      for_each (range 1 sample_size)
        (fun i time_diffs =>
           match nth_error df i, nth_error df (i - 1) with
           | Some p, Some p' =>
             let diff := minutes_between (Date p) (Date p') in
             if Qltb 0 diff then Return (time_diffs ++ [diff])%list
             else Return time_diffs
           | _, _ => Raise IndexError
           end)
        []
    with
    | Raise e => Raise e
    | Return [] => Return "unknown"
    | Return time_diffs =>
      let avg_diff :=
        (py_sum time_diffs / inject_Z (Z.of_nat (length time_diffs)))%Q in
      if Qltb avg_diff 45 then Return "intraday_minute"
      else if Qltb avg_diff 90 then Return "intraday_hourly"
      else if Qltb avg_diff (18 * 60) then Return "intraday_half_day"
      else if Qltb avg_diff (36 * 60) then Return "daily"
      else Return "daily_plus"
    end.

(** The reference definition of the detector, in the words of its
    specification: deltas of consecutive points of the sampled prefix, the
    positive ones kept, their arithmetic mean classified. *)
Fixpoint consecutive_deltas (ts : list Timestamp) : list Q :=
  match ts with
  | a :: rest =>
    match rest with
    | b :: _ => minutes_between b a :: consecutive_deltas rest
    | [] => []
    end
  | [] => []
  end.

Definition arithmetic_mean (xs : list Q) : Q :=
  (fold_right Qplus 0 xs / inject_Z (Z.of_nat (length xs)))%Q.

Definition classify_mean (m : Q) : string :=
  if Qltb m 45 then "intraday_minute"
  else if Qltb m 90 then "intraday_hourly"
  else if Qltb m 1080 then "intraday_half_day"
  else if Qltb m 2160 then "daily"
  else "daily_plus".

Definition granularity_reference (series : list PricePoint) : string :=
  if (length series <? 2)%nat then "unknown"
  else
    let sampled := firstn (Nat.min 100 (length series)) (map Date series) in
    let deltas := filter (fun d => Qltb 0 d) (consecutive_deltas sampled) in
    match deltas with
    | [] => "unknown"
    | _ => classify_mean (arithmetic_mean deltas)
    end.

(** The delta between the points at the indices [i] and [i - 1]. *)
Definition delta_at (df : DataFrame) (d : PricePoint) (i : nat) : Q :=
  minutes_between (Date (nth i df d)) (Date (nth (i - 1) df d)).

(** ** [get_strategies_for_granularity] *)

(** A strategy is the tuple [(name, amount, frequency)] of the source. *)
Definition Strategy : Type := (string * Q * string)%type.

Definition strategy_name (s : Strategy) : string := fst (fst s).
Definition strategy_amount (s : Strategy) : Q := snd (fst s).
Definition strategy_freq (s : Strategy) : string := snd s.

Definition get_strategies_for_granularity (granularity : string)
  : list Strategy :=
  if granularity =? "intraday_minute" then
    [ ("每半小時", 1 # 2, "halfhourly");
      ("每小時", 1, "hourly");
      ("每3小時", 3, "3hourly");
      ("每6小時", 6, "6hourly");
      ("每12小時", 12, "12hourly");
      ("每日", 24, "daily");
      ("每3日", 72, "3daily");
      ("每週", 168, "weekly") ]%Q
  else if granularity =? "intraday_hourly" then
    [ ("每小時", 1, "hourly");
      ("每3小時", 3, "3hourly");
      ("每6小時", 6, "6hourly");
      ("每12小時", 12, "12hourly");
      ("每日", 24, "daily");
      ("每3日", 72, "3daily");
      ("每週", 168, "weekly") ]%Q
  else if granularity =? "intraday_half_day" then
    [ ("每12小時", 12, "12hourly");
      ("每日", 24, "daily");
      ("每3日", 72, "3daily");
      ("每週", 168, "weekly");
      ("每月", 720, "monthly") ]%Q
  else if granularity =? "daily" then
    [ ("每日", 24, "daily");
      ("每3日", 72, "3daily");
      ("每週", 168, "weekly");
      ("每月", 720, "monthly");
      ("每季", 2160, "quarterly");
      ("每半年", 4320, "semiannually") ]%Q
  else
    [ ("每週", 168, "weekly");
      ("每月", 720, "monthly");
      ("每季", 2160, "quarterly");
      ("每半年", 4320, "semiannually");
      ("每年", 8760, "yearly") ]%Q.

(** ** [simulate_investment] *)

(** One entry of the [investments] list. *)
Record Investment : Type := mkInvestment {
  inv_shares : xnum;
  inv_commission : Q
}.

(** The dictionary returned by [simulate_investment]. *)
Record SimulationResult : Type := mkResult {
  count : nat;
  invested : Q;
  commission : Q;
  shares : xnum;
  value : xnum;
  return_ : xnum;
  final_price : Q
}.

(** The chain of [if frequency == ...] that moves the cursor to the next
    contribution date.  [None] is a [ValueError] that escapes the handler;
    a frequency matched by no branch leaves the cursor where it is. *)
Definition advance (frequency : string) (current : Timestamp)
  : option Timestamp :=
  if frequency =? "halfhourly" then
    Some (add_timedelta current (timedelta 0 0 30))
  else if frequency =? "hourly" then
    Some (add_timedelta current (timedelta 0 1 0))
  else if frequency =? "3hourly" then
    Some (add_timedelta current (timedelta 0 3 0))
  else if frequency =? "6hourly" then
    Some (add_timedelta current (timedelta 0 6 0))
  else if frequency =? "12hourly" then
    Some (add_timedelta current (timedelta 0 12 0))
  else if frequency =? "daily" then
    Some (add_timedelta current (timedelta 1 0 0))
  else if frequency =? "3daily" then
    Some (add_timedelta current (timedelta 3 0 0))
  else if frequency =? "weekly" then
    Some (add_timedelta current (timedelta 7 0 0))
  else if frequency =? "monthly" then
    try_except
      (if (month current <? 12)%Z
       then replace current None (Some (month current + 1)) None
       else replace current (Some (year current + 1)) (Some 1) None)
      (if (month current <? 12)%Z
       then replace current None (Some (month current + 1)) (Some 1)
       else replace current (Some (year current + 1)) (Some 1) (Some 1))
  else if frequency =? "quarterly" then
    try_except
      (let new_month := month current + 3 in
       if (12 <? new_month)%Z
       then replace current (Some (year current + 1)) (Some (new_month - 12)) None
       else replace current None (Some new_month) None)
      (let new_month := month current + 3 in
       if (12 <? new_month)%Z
       then replace current (Some (year current + 1)) (Some (new_month - 12)) (Some 1)
       else replace current None (Some new_month) (Some 1))
  else if frequency =? "semiannually" then
    try_except
      (let new_month := month current + 6 in
       if (12 <? new_month)%Z
       then replace current (Some (year current + 1)) (Some (new_month - 12)) None
       else replace current None (Some new_month) None)
      (let new_month := month current + 6 in
       if (12 <? new_month)%Z
       then replace current (Some (year current + 1)) (Some (new_month - 12)) (Some 1)
       else replace current None (Some new_month) (Some 1))
  else if frequency =? "yearly" then
    try_except
      (replace current (Some (year current + 1)) None None)
      (replace current (Some (year current + 1)) None (Some 1))
  else Some current.

(** The [while current <= end_dt] loop.  Each unfolding of the loop body
    spends one unit of fuel; [None] means the fuel ran out. *)
Fixpoint contribution_loop (self : StockInvestmentAnalyzer) (fuel : nat)
    (data : DataFrame) (end_dt : Timestamp) (amount : Q) (frequency : string)
    (current : Timestamp) (investments : list Investment)
  : option (pyresult (list Investment)) :=
  match fuel with
  | O => None
  | S fuel' =>
    if ts_leb current end_dt then
      let available := filter (fun p => ts_geb (Date p) current) data in
      match available with
      | [] => Some (Return investments)
      | first :: _ =>
        if ts_gtb (Date first) end_dt then Some (Return investments)
        else
          let price := Close first in
          let net := (amount * (1 - commission_rate self))%Q in
          let shares := xdiv (Fin net) (Fin price) in
          let investments' :=
            (investments ++
             [mkInvestment shares (amount * commission_rate self)%Q])%list in
          match advance frequency current with
          | None => Some (Raise ValueError)
          | Some current' =>
            contribution_loop self fuel' data end_dt amount frequency
              current' investments'
          end
      end
    else Some (Return investments)
  end.

(** [sum(inv['shares'] for inv in investments)] *)
Definition sum_shares (investments : list Investment) : xnum :=
  fold_left xadd (map inv_shares investments) (Fin 0).

(** The code after the loop. *)
Definition summarize (data : DataFrame) (end_dt : Timestamp) (amount : Q)
    (investments : list Investment) : pyresult SimulationResult :=
  let total_invested :=
    (inject_Z (Z.of_nat (length investments)) * amount)%Q in
  let total_shares := sum_shares investments in
  match py_index (filter (fun p => ts_leb (Date p) end_dt) data) (-1) with
  | Raise e => Raise e
  | Return last =>
    let final_price := Close last in
    let final_value := xmul total_shares (Fin final_price) in
    Return
      {| count := length investments;
         invested := total_invested;
         commission := py_sum (map inv_commission investments);
         shares := total_shares;
         value := final_value;
         return_ :=
           xmul (xdiv (xsub final_value (Fin total_invested))
                      (Fin total_invested))
                (Fin 100);
         final_price := final_price |}
  end.

Definition simulate_investment (self : StockInvestmentAnalyzer) (fuel : nat)
    (data : DataFrame) (start end_ : Timestamp) (amount : Q)
    (frequency : string) : option (pyresult SimulationResult) :=
  let current := start in
  let end_dt := end_ in
  match contribution_loop self fuel data end_dt amount frequency current [] with
  | None => None
  | Some (Raise e) => Some (Raise e)
  | Some (Return investments) => Some (summarize data end_dt amount investments)
  end.

(** ** [run]: the selection of at most eight strategies *)

Definition select_strategies (base_strategies : list Strategy)
  : pyresult (list Strategy) :=
  if (length base_strategies <=? 8)%nat then
    Return (map (fun s => match s with (name, amount, freq) => (name, amount, freq) end)
                base_strategies)
  else
    let step := (inject_Z (Z.of_nat (length base_strategies)) / 8)%Q in
    for_each (range 0 8)
      (fun i strategies =>
         let idx := py_int (inject_Z (Z.of_nat i) * step)%Q in
         match py_index base_strategies idx with
         | Return s => Return (strategies ++ [s])%list
         | Raise e => Raise e
         end)
      [].

(** ** [run]: the conclusion *)

(** The scan of [max(..., key=...)] and [min(..., key=...)]: the candidate
    is replaced only by an item whose key compares strictly [better]. *)
Fixpoint scan_by {A : Type} (better : xnum -> xnum -> bool) (key : A -> xnum)
    (best : A) (rest : list A) : A :=
  match rest with
  | [] => best
  | x :: rest' =>
    if better (key x) (key best) then scan_by better key x rest'
    else scan_by better key best rest'
  end.

(** An empty sequence is a [ValueError]. *)
Definition py_max {A : Type} (l : list A) (key : A -> xnum) : pyresult A :=
  match l with
  | [] => Raise ValueError
  | x :: rest => Return (scan_by xgtb key x rest)
  end.

Definition py_min {A : Type} (l : list A) (key : A -> xnum) : pyresult A :=
  match l with
  | [] => Raise ValueError
  | x :: rest => Return (scan_by xltb key x rest)
  end.

(** What the conclusion of [run] prints. *)
Record Conclusion : Type := mkConclusion {
  best : string * SimulationResult;
  worst : string * SimulationResult;
  spread : xnum;
  reference_final_price : Q
}.

Definition conclude (results : list (string * SimulationResult))
  : pyresult Conclusion :=
  match py_max results (fun x => return_ (snd x)) with
  | Raise e => Raise e
  | Return best =>
    match py_min results (fun x => return_ (snd x)) with
    | Raise e => Raise e
    | Return worst =>
      match py_index results 0 with
      | Raise e => Raise e
      | Return first =>
        Return
          {| best := best;
             worst := worst;
             spread := xsub (return_ (snd best)) (return_ (snd worst));
             reference_final_price := final_price (snd first) |}
      end
    end
  end.

(** ** Reference definitions of the calendar steps *)

(** [k] calendar months later, in the words of the specification: the year
    is carried when the month passes December, and a day that does not exist
    in the target month becomes day 1 of that month. *)
Definition add_months_clamped (k : Z) (t : Timestamp) : Timestamp :=
  let carry := (12 <? month t + k)%Z in
  let y' := if carry then year t + 1 else year t in
  let m' := if carry then month t + k - 12 else month t + k in
  let d' := if (day t <=? days_in_month y' m')%Z then day t else 1 in
  mkTimestamp y' m' d' (nanos t).

(** One year later, same month and day, with the same clamp. *)
Definition add_year_clamped (t : Timestamp) : Timestamp :=
  let y' := year t + 1 in
  let d' := if (day t <=? days_in_month y' (month t))%Z then day t else 1 in
  mkTimestamp y' (month t) d' (nanos t).

(** The twelve frequency codes of the strategy table. *)
Definition frequency_codes : list string :=
  [ "halfhourly"; "hourly"; "3hourly"; "6hourly"; "12hourly"; "daily";
    "3daily"; "weekly"; "monthly"; "quarterly"; "semiannually"; "yearly" ].

(** ** Reading the strategy table *)

Definition frequencies_of (granularity : string) : list string :=
  map strategy_freq (get_strategies_for_granularity granularity).

Definition intervals_of (granularity : string) : list Q :=
  map strategy_amount (get_strategies_for_granularity granularity).

Fixpoint ascending (xs : list Q) : bool :=
  match xs with
  | a :: rest =>
    match rest with
    | b :: _ => Qltb a b && ascending rest
    | [] => true
    end
  | [] => true
  end.

(** One row of the table: the frequencies offered for a label, in ascending
    interval order, between five and eight of them. *)
Definition table_row (granularity : string) (frequencies : list string)
  : Prop :=
  frequencies_of granularity = frequencies /\
  ascending (intervals_of granularity) = true /\
  (5 <= length (get_strategies_for_granularity granularity) <= 8)%nat.

(** ** Reading the conclusion *)

(** [e] is the first item of [l] with an extreme key: every item before it
    has a strictly worse key, and no item after it has a better one. *)
Definition first_extreme {A : Type} (better : xnum -> xnum -> bool)
    (key : A -> xnum) (l : list A) (e : A) : Prop :=
  exists before after,
    l = (before ++ e :: after)%list /\
    (forall x, In x before -> better (key e) (key x) = true) /\
    (forall x, In x after -> better (key x) (key e) = false).

Definition return_of (x : string * SimulationResult) : xnum :=
  return_ (snd x).

(** ** Daily series *)

(** Strictly daily spacing: each point lies exactly one day (1440 minutes)
    after the point before it. *)
Definition daily_spaced (data : DataFrame) : Prop :=
  forall i p q,
    nth_error data i = Some p -> nth_error data (S i) = Some q ->
    ts_value (Date q) - ts_value (Date p) = timedelta 1 0 0.

(** The contribution bought at the close of [p]. *)
Definition contribution_at (self : StockInvestmentAnalyzer) (amount : Q)
    (p : PricePoint) : Investment :=
  mkInvestment (Fin (amount * (1 - commission_rate self) / Close p)%Q)
               (amount * commission_rate self)%Q.

(** ** Sample inputs *)

Definition midnight (y m d : Z) : Timestamp := mkTimestamp y m d 0.

(** A point whose four prices are all [c]. *)
Definition flat_point (t : Timestamp) (c : Q) : PricePoint :=
  mkPricePoint t c c c c 0.

Definition sample_analyzer : StockInvestmentAnalyzer := mkAnalyzer (1 # 1000).

(** Three daily points at a constant close of 10. *)
Definition sample_data : DataFrame :=
  [ flat_point (midnight 2024 1 1) 10;
    flat_point (midnight 2024 1 2) 10;
    flat_point (midnight 2024 1 3) 10 ].

(** A result of which only the return matters. *)
Definition result_with_return (x : xnum) : SimulationResult :=
  mkResult 1 0 0 (Fin 0) (Fin 0) x 0.

(** Three results with the returns 5, -2 and 5. *)
Definition tied_results : list (string * SimulationResult) :=
  [ ("first", result_with_return (Fin 5));
    ("second", result_with_return (Fin (-2)));
    ("third", result_with_return (Fin 5)) ].

(** ** Reading the simulator *)

(** The duration of the eight fixed steps of [advance]; the calendar steps
    have none. *)
Definition fixed_step (frequency : string) : option Z :=
  if frequency =? "halfhourly" then Some (timedelta 0 0 30)
  else if frequency =? "hourly" then Some (timedelta 0 1 0)
  else if frequency =? "3hourly" then Some (timedelta 0 3 0)
  else if frequency =? "6hourly" then Some (timedelta 0 6 0)
  else if frequency =? "12hourly" then Some (timedelta 0 12 0)
  else if frequency =? "daily" then Some (timedelta 1 0 0)
  else if frequency =? "3daily" then Some (timedelta 3 0 0)
  else if frequency =? "weekly" then Some (timedelta 7 0 0)
  else None.

(** The entry that the loop appends when it buys at the close of [p]. *)
Definition investment_at (self : StockInvestmentAnalyzer) (amount : Q)
    (p : PricePoint) : Investment :=
  mkInvestment
    (xdiv (Fin (amount * (1 - commission_rate self))%Q) (Fin (Close p)))
    (amount * commission_rate self)%Q.

(** The shares that one unit of money buys over the points [chosen], the
    commission paid. *)
Definition unit_shares (c : Q) (chosen : list PricePoint) : Q :=
  fold_right (fun p acc => (1 - c) / Close p + acc)%Q 0%Q chosen.

(** The label that the detector gives to the collected deltas. *)
Definition label_of_deltas (time_diffs : list Q) : string :=
  match time_diffs with
  | [] => "unknown"
  | _ =>
    classify_mean
      (py_sum time_diffs / inject_Z (Z.of_nat (length time_diffs)))%Q
  end.

(** The six labels of the detector. *)
Definition granularity_labels : list string :=
  [ "intraday_minute"; "intraday_hourly"; "intraday_half_day"; "daily";
    "daily_plus"; "unknown" ].

(** ** [analyze_data] and [run] *)

(** The dictionary returned by [analyze_data]. *)
Record DataInfo : Type := mkInfo {
  start_date : Timestamp;
  end_date : Timestamp;
  total_days : nat;
  min_price : Q;
  max_price : Q;
  latest_price : Q;
  total_return : xnum;
  annual_return : xnum;
  granularity : string
}.

Definition ts_max (a b : Timestamp) : Timestamp := if ts_ltb a b then b else a.
Definition ts_min (a b : Timestamp) : Timestamp := if ts_ltb b a then b else a.
Definition q_max (a b : Q) : Q := if Qltb a b then b else a.
Definition q_min (a b : Q) : Q := if Qltb b a then b else a.

(** [t.strftime('%Y-%m-%d')] read back by [pd.to_datetime]: the midnight
    that begins the day of [t]. *)
Definition to_midnight (t : Timestamp) : Timestamp :=
  mkTimestamp (year t) (month t) (day t) 0.

(** How [run] ends: with its report, with an exception of one of the
    functions it calls, or with the [ZeroDivisionError] of the average
    cost. *)
Inductive run_outcome (A : Type) : Type :=
| Completed (a : A)
| Propagated (e : pyexn)
| ZeroDivisionError.

Arguments Completed {A} a.
Arguments Propagated {A} e.
Arguments ZeroDivisionError {A}.

(** What [run] prints: the data summary, the period, one result and one
    average cost per strategy, and the conclusion. *)
Record RunReport : Type := mkReport {
  report_info : DataInfo;
  report_start : Timestamp;
  report_end : Timestamp;
  report_results : list (string * SimulationResult);
  report_costs : list xnum;
  report_conclusion : Conclusion
}.

(** [result['invested'] / result['shares']].  The shares of a result
    without contribution are the integer 0 of an empty [sum], and the
    division of Python numbers by it raises ([None]); otherwise the shares
    are a numpy float and the division follows numpy. *)
Definition average_cost (result : SimulationResult) : option xnum :=
  if (count result =? 0)%nat then None
  else Some (xdiv (Fin (invested result)) (shares result)).

Fixpoint average_costs (results : list (string * SimulationResult))
  : option (list xnum) :=
  match results with
  | [] => Some []
  | (name, result) :: rest =>
    match average_cost result with
    | None => None
    | Some cost =>
      match average_costs rest with
      | None => None
      | Some costs => Some (cost :: costs)
      end
    end
  end.

(** The loop [for name, amount, freq in strategies] of [run]. *)
Fixpoint simulate_all (self : StockInvestmentAnalyzer) (fuel : nat)
    (data : DataFrame) (start end_ : Timestamp) (strategies : list Strategy)
  : option (pyresult (list (string * SimulationResult))) :=
  match strategies with
  | [] => Some (Return [])
  | (name, amount, freq) :: rest =>
    match simulate_investment self fuel data start end_ amount freq with
    | None => None
    | Some (Raise e) => Some (Raise e)
    | Some (Return result) =>
      match simulate_all self fuel data start end_ rest with
      | None => None
      | Some (Raise e) => Some (Raise e)
      | Some (Return results) => Some (Return ((name, result) :: results))
      end
    end
  end.

Section Analysis.

(** The power of numpy floats, [x ** y], left abstract. *)
Variable float_pow : xnum -> Q -> xnum.

Definition analyze_data (df : DataFrame) : pyresult DataInfo :=
  match py_index df 0 with
  | Raise e => Raise e
  | Return first =>
    match py_index df (-1) with
    | Raise e => Raise e
    | Return latest =>
      let first_price := Close first in
      let latest_price := Close latest in
      let date_max := fold_left ts_max (map Date df) (Date first) in
      let date_min := fold_left ts_min (map Date df) (Date first) in
      let days := ((ts_value date_max - ts_value date_min) / NS_PER_DAY)%Z in
      let years := (inject_Z days / (36525 # 100))%Q in
      match detect_data_granularity df with
      | Raise e => Raise e
      | Return granularity =>
        Return
          {| start_date := date_min;
             end_date := date_max;
             total_days := length df;
             min_price := fold_left q_min (map Low df) (Low first);
             max_price := fold_left q_max (map High df) (High first);
             latest_price := latest_price;
             total_return :=
               xmul (xdiv (xsub (Fin latest_price) (Fin first_price))
                          (Fin first_price))
                    (Fin 100);
             annual_return :=
               if Qltb 0 years then
                 xmul (xsub (float_pow
                               (xdiv (Fin latest_price) (Fin first_price))
                               (1 / years)%Q)
                            (Fin 1))
                      (Fin 100)
               else Fin 0;
             granularity := granularity |}
      end
    end
  end.

(** [run] on the loaded frame; [None] for [start] or [end_] is the missing
    argument, replaced by the first or last day of the data. *)
Definition run (self : StockInvestmentAnalyzer) (fuel : nat)
    (data : DataFrame) (start end_ : option Timestamp)
  : option (run_outcome RunReport) :=
  match analyze_data data with
  | Raise e => Some (Propagated e)
  | Return info =>
    let start :=
      match start with
      | Some s => s
      | None => to_midnight (start_date info)
      end in
    let end_ :=
      match end_ with
      | Some e => e
      | None => to_midnight (end_date info)
      end in
    let base_strategies := get_strategies_for_granularity (granularity info) in
    match select_strategies base_strategies with
    | Raise e => Some (Propagated e)
    | Return strategies =>
      match simulate_all self fuel data start end_ strategies with
      | None => None
      | Some (Raise e) => Some (Propagated e)
      | Some (Return results) =>
        match average_costs results with
        | None => Some ZeroDivisionError
        | Some costs =>
          match conclude results with
          | Raise e => Some (Propagated e)
          | Return conclusion =>
            Some (Completed (mkReport info start end_ results costs conclusion))
          end
        end
      end
    end
  end.

End Analysis.

(* ================================================================= *)
(** * Part II: properties *)
(* ================================================================= *)

Close Scope string_scope.

(** ** Calendar arithmetic *)
Lemma days_before_year_succ (y : Z) :
  days_before_year (y + 1) =
  days_before_year y + 365 + (if is_leap y then 1 else 0).
Proof.
  unfold days_before_year, is_leap.
  replace (y + 1 - 1) with y by lia.
  destruct (Z.eqb_spec (y mod 4) 0), (Z.eqb_spec (y mod 100) 0),
    (Z.eqb_spec (y mod 400) 0); cbn [andb orb negb];
    Z.div_mod_to_equations; lia.
Qed.

Lemma days_before_year_mono (y y' : Z) :
  y <= y' -> days_before_year y <= days_before_year y'.
Proof.
  intros H. unfold days_before_year.
  Z.div_mod_to_equations. lia.
Qed.

Lemma month_cases (m : Z) :
  1 <= m <= 12 ->
  m = 1 \/ m = 2 \/ m = 3 \/ m = 4 \/ m = 5 \/ m = 6 \/
  m = 7 \/ m = 8 \/ m = 9 \/ m = 10 \/ m = 11 \/ m = 12.
Proof. lia. Qed.

Ltac by_month m H :=
  let C := fresh "C" in
  pose proof (month_cases m H) as C;
  repeat (destruct C as [C | C]; [subst m | ]); [ .. | subst m ].

Lemma days_before_month_succ (y m : Z) :
  1 <= m <= 11 ->
  days_before_month y (m + 1) = days_before_month y m + days_in_month y m.
Proof.
  intros H. assert (H' : 1 <= m <= 12) by lia.
  by_month m H'; try lia;
    unfold days_before_month, days_in_month; cbn;
    destruct (is_leap y); reflexivity.
Qed.

Lemma days_in_month_bounds (y m : Z) :
  1 <= m <= 12 -> 28 <= days_in_month y m <= 31.
Proof.
  intros H. by_month m H; unfold days_in_month;
    try destruct (is_leap y); lia.
Qed.

Lemma days_before_month_12 (y : Z) :
  days_before_month y 12 + days_in_month y 12 =
  365 + (if is_leap y then 1 else 0).
Proof.
  unfold days_before_month, days_in_month; cbn. destruct (is_leap y); reflexivity.
Qed.

Lemma days_before_month_mono (y m m' : Z) :
  1 <= m -> m < m' -> m' <= 12 ->
  days_before_month y m + days_in_month y m <= days_before_month y m'.
Proof.
  intros H1 H2 H3.
  assert (Hm : 1 <= m <= 12) by lia. assert (Hm' : 1 <= m' <= 12) by lia.
  by_month m Hm; by_month m' Hm'; try lia;
    unfold days_before_month, days_in_month; cbn;
    destruct (is_leap y); lia.
Qed.

Lemma check_date_fields_spec (y m d : Z) :
  check_date_fields y m d = true <->
  1 <= y /\ 1 <= m <= 12 /\ 1 <= d <= days_in_month y m.
Proof.
  unfold check_date_fields. rewrite !andb_true_iff, !Z.leb_le. lia.
Qed.

Lemma valid_ts_spec (t : Timestamp) :
  valid_ts t <->
  1 <= year t /\ 1 <= month t <= 12 /\
  1 <= day t <= days_in_month (year t) (month t) /\
  0 <= nanos t < NS_PER_DAY.
Proof.
  unfold valid_ts. rewrite check_date_fields_spec. tauto.
Qed.

Lemma days_before_month_nonneg (y m : Z) :
  1 <= m <= 12 -> 0 <= days_before_month y m.
Proof.
  intros H. by_month m H; unfold days_before_month; cbn;
    destruct (is_leap y); lia.
Qed.

Lemma toordinal_in_year (t : Timestamp) :
  valid_ts t ->
  days_before_year (year t) < toordinal t <= days_before_year (year t + 1).
Proof.
  rewrite valid_ts_spec. intros (Hy & Hm & Hd & _).
  unfold toordinal. rewrite days_before_year_succ.
  pose proof (days_before_month_12 (year t)) as H12.
  assert (days_before_month (year t) (month t) +
          days_in_month (year t) (month t) <=
          days_before_month (year t) 12 + days_in_month (year t) 12).
  { destruct (Z.eq_dec (month t) 12) as [-> | Hne]; [lia | ].
    pose proof (days_before_month_mono (year t) (month t) 12).
    pose proof (days_in_month_bounds (year t) 12). lia. }
  assert (0 <= days_before_month (year t) (month t)).
  { apply days_before_month_nonneg; assumption. }
  lia.
Qed.

Lemma toordinal_lt (a b : Timestamp) :
  valid_ts a -> valid_ts b ->
  year a < year b \/
  (year a = year b /\
   (month a < month b \/ (month a = month b /\ day a < day b))) ->
  toordinal a < toordinal b.
Proof.
  intros Ha Hb H.
  pose proof (toordinal_in_year a Ha) as Ia.
  pose proof (toordinal_in_year b Hb) as Ib.
  apply valid_ts_spec in Ha. apply valid_ts_spec in Hb.
  destruct H as [Hy | [Hy [Hm | [Hm Hd]]]].
  - pose proof (days_before_year_mono (year a + 1) (year b)). lia.
  - unfold toordinal. rewrite Hy.
    pose proof (days_before_month_mono (year b) (month a) (month b)).
    rewrite Hy in *. lia.
  - unfold toordinal. rewrite Hy, Hm. lia.
Qed.

Lemma ts_value_lt (a b : Timestamp) :
  valid_ts a -> valid_ts b ->
  toordinal a < toordinal b \/
  (toordinal a = toordinal b /\ nanos a < nanos b) ->
  ts_value a < ts_value b.
Proof.
  intros Ha Hb H. apply valid_ts_spec in Ha. apply valid_ts_spec in Hb.
  unfold ts_value, NS_PER_DAY, NS_PER_SECOND in *. lia.
Qed.

Lemma ts_compare_value (a b : Timestamp) :
  valid_ts a -> valid_ts b ->
  ts_compare a b = (ts_value a ?= ts_value b).
Proof.
  intros Ha Hb. unfold ts_compare.
  assert (Lt_case : forall x y, valid_ts x -> valid_ts y ->
            year x < year y \/
            (year x = year y /\
             (month x < month y \/ (month x = month y /\ day x < day y))) ->
            ts_value x < ts_value y).
  { intros x y Hx Hy H. apply ts_value_lt; auto.
    left. apply toordinal_lt; auto. }
  destruct (Z.compare_spec (year a) (year b)) as [Hy | Hy | Hy];
    [ destruct (Z.compare_spec (month a) (month b)) as [Hm | Hm | Hm];
      [ destruct (Z.compare_spec (day a) (day b)) as [Hd | Hd | Hd] | | ]
    | | ];
    try (symmetry; apply Z.compare_lt_iff; apply Lt_case; auto; lia);
    try (symmetry; apply Z.compare_gt_iff; apply Lt_case; auto; lia).
  assert (toordinal a = toordinal b)
    by (unfold toordinal; rewrite Hy, Hm, Hd; reflexivity).
  unfold ts_value.
  destruct (Z.compare_spec (nanos a) (nanos b));
    symmetry; [apply Z.compare_eq_iff | apply Z.compare_lt_iff
              | apply Z.compare_gt_iff]; lia.
Qed.

Lemma ts_leb_value (a b : Timestamp) :
  valid_ts a -> valid_ts b ->
  ts_leb a b = (ts_value a <=? ts_value b).
Proof.
  intros Ha Hb. unfold ts_leb, Z.leb.
  rewrite (ts_compare_value a b Ha Hb). reflexivity.
Qed.

Lemma ts_ltb_value (a b : Timestamp) :
  valid_ts a -> valid_ts b ->
  ts_ltb a b = (ts_value a <? ts_value b).
Proof.
  intros Ha Hb. unfold ts_ltb, Z.ltb.
  rewrite (ts_compare_value a b Ha Hb). reflexivity.
Qed.

Lemma ts_gtb_negb_leb (a b : Timestamp) : ts_gtb a b = negb (ts_leb a b).
Proof.
  unfold ts_gtb, ts_ltb, ts_leb, ts_compare.
  rewrite (Z.compare_antisym (year a) (year b)),
          (Z.compare_antisym (month a) (month b)),
          (Z.compare_antisym (day a) (day b)),
          (Z.compare_antisym (nanos a) (nanos b)).
  destruct (year a ?= year b), (month a ?= month b), (day a ?= day b),
    (nanos a ?= nanos b); reflexivity.
Qed.

Lemma next_day_spec (t : Timestamp) :
  valid_ts t ->
  valid_ts (next_day t) /\
  toordinal (next_day t) = toordinal t + 1 /\
  nanos (next_day t) = nanos t.
Proof.
  intros Hv. pose proof Hv as Hv'. apply valid_ts_spec in Hv'.
  destruct Hv' as (Hy & Hm & Hd & Hn).
  unfold next_day.
  destruct (Z.ltb_spec (day t) (days_in_month (year t) (month t))) as [Hlt | Hge].
  - split; [ | split; [ | reflexivity]].
    + apply valid_ts_spec; cbn [year month day nanos]. lia.
    + unfold toordinal; cbn [year month day nanos]. lia.
  - destruct (Z.ltb_spec (month t) 12) as [Hm12 | Hm12].
    + split; [ | split; [ | reflexivity]].
      * apply valid_ts_spec; cbn [year month day nanos].
        pose proof (days_in_month_bounds (year t) (month t + 1)). lia.
      * unfold toordinal; cbn [year month day nanos].
        rewrite days_before_month_succ by lia. lia.
    + split; [ | split; [ | reflexivity]].
      * apply valid_ts_spec; cbn [year month day nanos].
        pose proof (days_in_month_bounds (year t + 1) 1). lia.
      * unfold toordinal; cbn [year month day nanos].
        rewrite days_before_year_succ.
        assert (month t = 12) as E by lia. rewrite E in *.
        pose proof (days_before_month_12 (year t)).
        assert (days_before_month (year t + 1) 1 = 0) by reflexivity.
        destruct (is_leap (year t)); lia.
Qed.

Lemma add_days_spec (n : nat) (t : Timestamp) :
  valid_ts t ->
  valid_ts (add_days n t) /\
  toordinal (add_days n t) = toordinal t + Z.of_nat n /\
  nanos (add_days n t) = nanos t.
Proof.
  intros Hv. induction n as [ | n IH].
  - cbn. repeat split; try apply Hv; lia.
  - destruct IH as (IHv & IHo & IHn).
    destruct (next_day_spec _ IHv) as (Nv & No & Nn).
    cbn [add_days]. repeat split; try apply Nv; lia.
Qed.

Lemma add_timedelta_spec (t : Timestamp) (delta : Z) :
  valid_ts t -> 0 <= delta ->
  valid_ts (add_timedelta t delta) /\
  ts_value (add_timedelta t delta) = ts_value t + delta.
Proof.
  intros Hv Hd. pose proof Hv as Hv'. apply valid_ts_spec in Hv'.
  destruct Hv' as (_ & _ & _ & Hn).
  assert (HD : 0 < NS_PER_DAY) by reflexivity.
  set (total := nanos t + delta).
  assert (Hq : 0 <= total / NS_PER_DAY) by (apply Z.div_pos; lia).
  destruct (add_days_spec (Z.to_nat (total / NS_PER_DAY)) t Hv)
    as (Av & Ao & An).
  pose proof (Z.mod_pos_bound total NS_PER_DAY HD) as Hr.
  unfold add_timedelta. fold total.
  set (t' := add_days (Z.to_nat (total / NS_PER_DAY)) t) in *.
  split.
  - apply valid_ts_spec in Av. apply valid_ts_spec; cbn [year month day nanos]. tauto.
  - unfold ts_value, toordinal in *; cbn [year month day nanos].
    rewrite Ao, Z2Nat.id by assumption.
    pose proof (Z.div_mod total NS_PER_DAY ltac:(lia)) as E.
    unfold total in *. lia.
Qed.

(** ** The calendar steps of [advance] *)

Lemma check_date_fields_day (y m d : Z) :
  1 <= y -> 1 <= m <= 12 -> 1 <= d ->
  check_date_fields y m d = (d <=? days_in_month y m).
Proof.
  intros Hy Hm Hd. unfold check_date_fields.
  replace (1 <=? y) with true by (symmetry; apply Z.leb_le; lia).
  replace (1 <=? m) with true by (symmetry; apply Z.leb_le; lia).
  replace (m <=? 12) with true by (symmetry; apply Z.leb_le; lia).
  replace (1 <=? d) with true by (symmetry; apply Z.leb_le; lia).
  reflexivity.
Qed.

Lemma check_date_fields_first (y m : Z) :
  1 <= y -> 1 <= m <= 12 -> check_date_fields y m 1 = true.
Proof.
  intros Hy Hm. rewrite check_date_fields_day by lia.
  apply Z.leb_le. pose proof (days_in_month_bounds y m Hm). lia.
Qed.

(** A [replace] of year and month retried with [day=1]: the shape shared by
    the four calendar branches. *)
Lemma replace_retry (t : Timestamp) (y m : Z) :
  valid_ts t -> 1 <= y -> 1 <= m <= 12 ->
  try_except
    (if check_date_fields y m (day t)
     then Some (mkTimestamp y m (day t) (nanos t)) else None)
    (if check_date_fields y m 1
     then Some (mkTimestamp y m 1 (nanos t)) else None) =
  Some (mkTimestamp y m
          (if day t <=? days_in_month y m then day t else 1) (nanos t)).
Proof.
  intros Hv Hy Hm. apply valid_ts_spec in Hv.
  rewrite check_date_fields_day by lia.
  rewrite check_date_fields_first by lia.
  destruct (day t <=? days_in_month y m); reflexivity.
Qed.

Lemma advance_monthly (t : Timestamp) :
  valid_ts t -> advance "monthly" t = Some (add_months_clamped 1 t).
Proof.
  intros Hv. pose proof Hv as Hs. apply valid_ts_spec in Hs.
  cbv beta delta [advance]. cbn [String.eqb Ascii.eqb Bool.eqb].
  unfold add_months_clamped, replace.
  destruct (Z.ltb_spec (month t) 12) as [Hlt | Hge].
  - replace (12 <? month t + 1) with false by (symmetry; apply Z.ltb_ge; lia).
    apply replace_retry; auto; lia.
  - replace (12 <? month t + 1) with true by (symmetry; apply Z.ltb_lt; lia).
    replace (month t + 1 - 12) with 1 by lia.
    apply replace_retry; auto; lia.
Qed.

Lemma carried_months (t : Timestamp) (k : Z) :
  valid_ts t -> 1 <= k <= 11 ->
  try_except
    (let new_month := month t + k in
     if 12 <? new_month
     then replace t (Some (year t + 1)) (Some (new_month - 12)) None
     else replace t None (Some new_month) None)
    (let new_month := month t + k in
     if 12 <? new_month
     then replace t (Some (year t + 1)) (Some (new_month - 12)) (Some 1)
     else replace t None (Some new_month) (Some 1)) =
  Some (add_months_clamped k t).
Proof.
  intros Hv Hk. pose proof Hv as Hs. apply valid_ts_spec in Hs.
  unfold add_months_clamped, replace. cbv zeta.
  destruct (Z.ltb_spec 12 (month t + k)) as [Hlt | Hge];
    apply replace_retry; auto; lia.
Qed.

Lemma advance_quarterly (t : Timestamp) :
  valid_ts t -> advance "quarterly" t = Some (add_months_clamped 3 t).
Proof.
  intros Hv. cbv beta delta [advance]. cbn [String.eqb Ascii.eqb Bool.eqb].
  apply carried_months; auto; lia.
Qed.

Lemma advance_semiannually (t : Timestamp) :
  valid_ts t -> advance "semiannually" t = Some (add_months_clamped 6 t).
Proof.
  intros Hv. cbv beta delta [advance]. cbn [String.eqb Ascii.eqb Bool.eqb].
  apply carried_months; auto; lia.
Qed.

Lemma advance_yearly (t : Timestamp) :
  valid_ts t -> advance "yearly" t = Some (add_year_clamped t).
Proof.
  intros Hv. pose proof Hv as Hs. apply valid_ts_spec in Hs.
  cbv beta delta [advance]. cbn [String.eqb Ascii.eqb Bool.eqb].
  unfold add_year_clamped, replace.
  apply replace_retry; auto; lia.
Qed.



(** ** Every recognised step moves the cursor forward *)

Lemma add_months_clamped_later (k : Z) (t : Timestamp) :
  valid_ts t -> 1 <= k <= 11 ->
  valid_ts (add_months_clamped k t) /\
  ts_value t < ts_value (add_months_clamped k t).
Proof.
  intros Hv Hk. pose proof Hv as Hs. apply valid_ts_spec in Hs.
  destruct Hs as (Hy & Hm & Hd & Hn).
  assert (Hv' : valid_ts (add_months_clamped k t)).
  { apply valid_ts_spec. unfold add_months_clamped.
    cbn [year month day nanos].
    destruct (Z.ltb_spec 12 (month t + k)) as [Hc | Hc].
    - pose proof (days_in_month_bounds (year t + 1) (month t + k - 12)).
      destruct (Z.leb_spec (day t)
                  (days_in_month (year t + 1) (month t + k - 12))); lia.
    - pose proof (days_in_month_bounds (year t) (month t + k)).
      destruct (Z.leb_spec (day t)
                  (days_in_month (year t) (month t + k))); lia. }
  split; [exact Hv' | ].
  apply ts_value_lt; auto. left. apply toordinal_lt; auto.
  unfold add_months_clamped. cbn [year month day nanos].
  destruct (Z.ltb_spec 12 (month t + k)); lia.
Qed.

Lemma add_year_clamped_later (t : Timestamp) :
  valid_ts t ->
  valid_ts (add_year_clamped t) /\
  ts_value t < ts_value (add_year_clamped t).
Proof.
  intros Hv. pose proof Hv as Hs. apply valid_ts_spec in Hs.
  destruct Hs as (Hy & Hm & Hd & Hn).
  assert (Hv' : valid_ts (add_year_clamped t)).
  { apply valid_ts_spec. unfold add_year_clamped.
    cbn [year month day nanos].
    pose proof (days_in_month_bounds (year t + 1) (month t)).
    destruct (Z.leb_spec (day t) (days_in_month (year t + 1) (month t)));
      lia. }
  split; [exact Hv' | ].
  apply ts_value_lt; auto. left. apply toordinal_lt; auto.
  unfold add_year_clamped. cbn [year month day nanos]. lia.
Qed.

Lemma timedelta_later (t : Timestamp) (delta : Z) :
  valid_ts t -> 0 < delta ->
  valid_ts (add_timedelta t delta) /\
  ts_value t < ts_value (add_timedelta t delta).
Proof.
  intros Hv Hd.
  destruct (add_timedelta_spec t delta Hv) as (Hv' & E); [lia | ].
  split; [exact Hv' | lia].
Qed.

Lemma advance_later (frequency : string) (t : Timestamp) :
  In frequency frequency_codes -> valid_ts t ->
  exists t', advance frequency t = Some t' /\
             valid_ts t' /\ ts_value t < ts_value t'.
Proof.
  intros Hin Hv. unfold frequency_codes in Hin.
  repeat (destruct Hin as [<- | Hin]); try contradiction;
    try (eexists; split; [reflexivity | ];
         apply timedelta_later; [exact Hv | reflexivity]).
  - eexists; split; [apply advance_monthly; exact Hv | ].
    apply add_months_clamped_later; [exact Hv | lia].
  - eexists; split; [apply advance_quarterly; exact Hv | ].
    apply add_months_clamped_later; [exact Hv | lia].
  - eexists; split; [apply advance_semiannually; exact Hv | ].
    apply add_months_clamped_later; [exact Hv | lia].
  - eexists; split; [apply advance_yearly; exact Hv | ].
    apply add_year_clamped_later; exact Hv.
Qed.

(** ** Termination of the contribution loop *)

Lemma contribution_loop_more_fuel (self : StockInvestmentAnalyzer)
    (data : DataFrame) (end_dt : Timestamp) (amount : Q) (frequency : string)
    (fuel : nat) :
  forall current investments r,
    contribution_loop self fuel data end_dt amount frequency current
      investments = Some r ->
    forall fuel', (fuel <= fuel')%nat ->
      contribution_loop self fuel' data end_dt amount frequency current
        investments = Some r.
Proof.
  induction fuel as [ | fuel IH]; intros current investments r H fuel' Hle.
  - discriminate.
  - destruct fuel' as [ | fuel']; [lia | ].
    cbn [contribution_loop] in *.
    destruct (ts_leb current end_dt); [ | exact H].
    destruct (filter _ data) as [ | first rest]; [exact H | ].
    destruct (ts_gtb (Date first) end_dt); [exact H | ].
    destruct (advance frequency current) as [current' | ]; [ | exact H].
    apply (IH _ _ _ H). lia.
Qed.

Lemma contribution_loop_fuel_enough (self : StockInvestmentAnalyzer)
    (data : DataFrame) (end_dt : Timestamp) (amount : Q) (frequency : string) :
  In frequency frequency_codes -> valid_ts end_dt ->
  forall fuel current investments,
    valid_ts current ->
    Z.max 0 (ts_value end_dt - ts_value current + 1) < Z.of_nat fuel ->
    exists result,
      contribution_loop self fuel data end_dt amount frequency current
        investments = Some (Return result).
Proof.
  intros Hin Hend.
  induction fuel as [ | fuel IH]; intros current investments Hcur Hfuel.
  - lia.
  - cbn [contribution_loop].
    rewrite (ts_leb_value current end_dt Hcur Hend).
    destruct (Z.leb_spec (ts_value current) (ts_value end_dt)) as [Hle | Hgt];
      [ | eexists; reflexivity].
    destruct (filter _ data) as [ | first rest]; [eexists; reflexivity | ].
    destruct (ts_gtb (Date first) end_dt); [eexists; reflexivity | ].
    destruct (advance_later frequency current Hin Hcur)
      as (current' & -> & Hcur' & Hlater).
    apply IH; [exact Hcur' | lia].
Qed.


Lemma valid_midnight (y m d : Z) :
  check_date_fields y m d = true -> valid_ts (midnight y m d).
Proof.
  intros H. split; [exact H | ].
  cbn [midnight nanos]. unfold NS_PER_DAY, NS_PER_SECOND. lia.
Qed.


(** ** The final price *)

Lemma py_index_last {A : Type} (l : list A) (x : A) :
  py_index (l ++ [x]) (-1) = Return x.
Proof.
  unfold py_index. rewrite length_app. cbn [length].
  replace (-1 <? 0) with true by reflexivity.
  set (n := Z.of_nat (length l + 1)).
  assert (Hn : -1 + n = Z.of_nat (length l)) by (unfold n; lia).
  rewrite Hn.
  replace (0 <=? Z.of_nat (length l)) with true
    by (symmetry; apply Z.leb_le; lia).
  replace (Z.of_nat (length l) <? n) with true
    by (symmetry; apply Z.ltb_lt; lia).
  cbn [andb]. rewrite Nat2Z.id.
  rewrite nth_error_app2 by lia. rewrite Nat.sub_diag. reflexivity.
Qed.

Lemma filter_nil_iff {A : Type} (f : A -> bool) (l : list A) :
  filter f l = [] <-> (forall x, In x l -> f x = false).
Proof.
  induction l as [ | a l IH]; cbn.
  - split; [intros _ x [] | reflexivity].
  - destruct (f a) eqn:Fa.
    + split; [discriminate | ].
      intros H. rewrite (H a (or_introl eq_refl)) in Fa. discriminate.
    + rewrite IH. split.
      * intros H x [<- | Hx]; auto.
      * intros H x Hx. apply H. right. exact Hx.
Qed.

(** The loop makes no contribution when no point lies at or before the end
    date. *)
Lemma contribution_loop_no_point (self : StockInvestmentAnalyzer)
    (fuel : nat) (data : DataFrame) (start end_ : Timestamp) (amount : Q)
    (frequency : string) :
  (forall p, In p data -> ts_leb (Date p) end_ = false) ->
  contribution_loop self (S fuel) data end_ amount frequency start [] =
  Some (Return []).
Proof.
  intros Hnone. cbn [contribution_loop].
  destruct (ts_leb start end_); [ | reflexivity].
  destruct (filter _ data) as [ | first rest] eqn:Hf; [reflexivity | ].
  assert (Hin : In first data).
  { assert (H : In first (first :: rest)) by (left; reflexivity).
    rewrite <- Hf in H. apply filter_In in H. tauto. }
  rewrite ts_gtb_negb_leb, (Hnone first Hin). reflexivity.
Qed.

(** C5.  When the series has no point with a timestamp at or before the end
    date, the simulation fails: it raises [IndexError] where the final price
    is looked up, and returns no result. *)
Theorem no_final_price_raises (self : StockInvestmentAnalyzer) (fuel : nat)
    (data : DataFrame) (start end_ : Timestamp) (amount : Q)
    (frequency : string) :
  (forall p, In p data -> ts_leb (Date p) end_ = false) ->
  simulate_investment self (S fuel) data start end_ amount frequency =
  Some (Raise IndexError).
Proof.
  intros Hnone. unfold simulate_investment.
  rewrite (contribution_loop_no_point self fuel data start end_ amount
             frequency Hnone).
  unfold summarize.
  replace (filter (fun p => ts_leb (Date p) end_) data) with (@nil PricePoint)
    by (symmetry; apply filter_nil_iff; exact Hnone).
  reflexivity.
Qed.

Lemma no_final_price_raises_witness :
  (forall p, In p sample_data ->
     ts_leb (Date p) (midnight 2023 3 3) = false) /\
  simulate_investment sample_analyzer 1 sample_data (midnight 2023 2 1)
    (midnight 2023 3 3) 24 "daily" = Some (Raise IndexError).
Proof.
  assert (H : forall p, In p sample_data ->
                ts_leb (Date p) (midnight 2023 3 3) = false).
  { intros p Hp. unfold sample_data in Hp.
    repeat (destruct Hp as [<- | Hp]); try contradiction; reflexivity. }
  split; [exact H | ].
  exact (no_final_price_raises sample_analyzer 0 sample_data
           (midnight 2023 2 1) (midnight 2023 3 3) 24 "daily" H).
Defined.

(** The loop itself never raises [IndexError], and the summary raises it
    only for want of a point at or before the end date: this error occurs
    in no other situation. *)
Lemma contribution_loop_no_index_error (self : StockInvestmentAnalyzer)
    (data : DataFrame) (end_dt : Timestamp) (amount : Q) (frequency : string)
    (fuel : nat) :
  forall current investments,
    contribution_loop self fuel data end_dt amount frequency current
      investments <> Some (Raise IndexError).
Proof.
  induction fuel as [ | fuel IH]; intros current investments;
    cbn [contribution_loop]; [discriminate | ].
  destruct (ts_leb current end_dt); [ | discriminate].
  destruct (filter _ data) as [ | first rest]; [discriminate | ].
  destruct (ts_gtb (Date first) end_dt); [discriminate | ].
  destruct (advance frequency current); [apply IH | discriminate].
Qed.

Lemma index_error_only_without_final_price (self : StockInvestmentAnalyzer)
    (fuel : nat) (data : DataFrame) (start end_ : Timestamp) (amount : Q)
    (frequency : string) :
  simulate_investment self fuel data start end_ amount frequency =
  Some (Raise IndexError) ->
  forall p, In p data -> ts_leb (Date p) end_ = false.
Proof.
  unfold simulate_investment.
  destruct (contribution_loop self fuel data end_ amount frequency start [])
    as [[investments | e] | ] eqn:Hloop; [ | | discriminate].
  - unfold summarize.
    destruct (filter (fun p => ts_leb (Date p) end_) data) as [ | a l] eqn:Hf.
    + intros _. apply filter_nil_iff. exact Hf.
    + destruct (exists_last (l := a :: l)) as (l' & x & E); [discriminate | ].
      rewrite E, py_index_last. discriminate.
  - intros H. injection H as ->.
    exfalso. exact (contribution_loop_no_index_error _ _ _ _ _ _ _ _ Hloop).
Qed.

(** ** A run without contributions *)

(** A call the code can receive: the whole date range lies after the
    series.  No contribution is made, and the result carries a [NaN] return
    (0/0) without any flag. *)
Lemma zero_contributions_nan :
  exists r,
    simulate_investment sample_analyzer 1 sample_data (midnight 2024 2 1)
      (midnight 2024 3 3) 24 "daily" = Some (Return r) /\
    count r = 0%nat /\ return_ r = NaN.
Proof.
  eexists. split; [reflexivity | split; reflexivity].
Qed.

Lemma filter_not_nil {A : Type} (f : A -> bool) (l : list A) (x : A) :
  In x l -> f x = true -> filter f l <> [].
Proof.
  intros Hin Hf E.
  pose proof (proj1 (filter_nil_iff f l) E x Hin) as H. congruence.
Qed.

(** C4, as the code has it.  When the contribution loop makes no
    contribution and some point lies at or before the end date, the
    simulation returns a result without any flag: the count is 0, invested
    amount, shares and value are zero, and the return is [NaN], the quotient
    0/0. *)
Theorem zero_contributions_result (self : StockInvestmentAnalyzer)
    (fuel : nat) (data : DataFrame) (start end_ : Timestamp) (amount : Q)
    (frequency : string) :
  contribution_loop self fuel data end_ amount frequency start [] =
    Some (Return []) ->
  (exists p, In p data /\ ts_leb (Date p) end_ = true) ->
  exists r,
    simulate_investment self fuel data start end_ amount frequency =
      Some (Return r) /\
    count r = 0%nat /\ (invested r == 0)%Q /\ shares r = Fin 0 /\
    xeq (value r) (Fin 0) /\ return_ r = NaN.
Proof.
  intros Hloop (p & Hin & Hle).
  unfold simulate_investment. rewrite Hloop. unfold summarize.
  destruct (filter (fun p => ts_leb (Date p) end_) data) as [ | a l] eqn:Hf.
  - exfalso. exact (filter_not_nil _ data p Hin Hle Hf).
  - destruct (exists_last (l := a :: l)) as (l' & x & E); [discriminate | ].
    rewrite E, py_index_last.
    eexists. split; [reflexivity | ].
    cbn [count invested shares value return_ length map sum_shares fold_left].
    destruct amount as [an ad], (Close x) as [cn cd].
    repeat split; reflexivity.
Qed.

Lemma zero_contributions_result_witness :
  contribution_loop sample_analyzer 1 sample_data (midnight 2024 3 3) 24
    "daily" (midnight 2024 2 1) [] = Some (Return []) /\
  (exists p, In p sample_data /\
             ts_leb (Date p) (midnight 2024 3 3) = true) /\
  exists r,
    simulate_investment sample_analyzer 1 sample_data (midnight 2024 2 1)
      (midnight 2024 3 3) 24 "daily" = Some (Return r) /\
    count r = 0%nat /\ (invested r == 0)%Q /\ shares r = Fin 0 /\
    xeq (value r) (Fin 0) /\ return_ r = NaN.
Proof.
  assert (H1 : contribution_loop sample_analyzer 1 sample_data
                 (midnight 2024 3 3) 24 "daily" (midnight 2024 2 1) [] =
               Some (Return [])) by reflexivity.
  assert (H2 : exists p, In p sample_data /\
                         ts_leb (Date p) (midnight 2024 3 3) = true).
  { exists (flat_point (midnight 2024 1 1) 10).
    split; [left; reflexivity | reflexivity]. }
  split; [exact H1 | split; [exact H2 | ]].
  exact (zero_contributions_result sample_analyzer 1 sample_data
           (midnight 2024 2 1) (midnight 2024 3 3) 24 "daily" H1 H2).
Defined.

(** ** The strategy table *)

Open Scope string_scope.

(** C8.  For each of the six granularity labels the catalogue is the row of
    the table: the listed frequency codes in that order, ascending in
    interval, five to eight entries. *)
Theorem strategy_table :
  table_row "intraday_minute"
    ["halfhourly"; "hourly"; "3hourly"; "6hourly"; "12hourly"; "daily";
     "3daily"; "weekly"] /\
  table_row "intraday_hourly"
    ["hourly"; "3hourly"; "6hourly"; "12hourly"; "daily"; "3daily";
     "weekly"] /\
  table_row "intraday_half_day"
    ["12hourly"; "daily"; "3daily"; "weekly"; "monthly"] /\
  table_row "daily"
    ["daily"; "3daily"; "weekly"; "monthly"; "quarterly"; "semiannually"] /\
  table_row "daily_plus"
    ["weekly"; "monthly"; "quarterly"; "semiannually"; "yearly"] /\
  table_row "unknown"
    ["weekly"; "monthly"; "quarterly"; "semiannually"; "yearly"] /\
  length (get_strategies_for_granularity "intraday_minute") = 8%nat /\
  length (get_strategies_for_granularity "intraday_hourly") = 7%nat /\
  length (get_strategies_for_granularity "intraday_half_day") = 5%nat /\
  length (get_strategies_for_granularity "daily") = 6%nat /\
  length (get_strategies_for_granularity "daily_plus") = 5%nat /\
  length (get_strategies_for_granularity "unknown") = 5%nat.
Proof.
  unfold table_row.
  repeat match goal with
         | |- _ /\ _ => split
         | |- (_ <= _)%nat => vm_compute; lia
         | |- _ => reflexivity
         end.
Qed.

(** C10.  The catalogue is total on label strings: whatever the label, it
    holds five to eight strategies, and a label that is none of the four
    matched by the code gets the list of [daily_plus] and [unknown]: weekly,
    monthly, quarterly, semiannually, yearly. *)
Theorem strategies_total (granularity : string) :
  (5 <= length (get_strategies_for_granularity granularity) <= 8)%nat /\
  (granularity = "intraday_minute" \/ granularity = "intraday_hourly" \/
   granularity = "intraday_half_day" \/ granularity = "daily" \/
   (get_strategies_for_granularity granularity =
      get_strategies_for_granularity "daily_plus" /\
    get_strategies_for_granularity granularity =
      get_strategies_for_granularity "unknown" /\
    frequencies_of granularity =
      ["weekly"; "monthly"; "quarterly"; "semiannually"; "yearly"])).
Proof.
  unfold frequencies_of, get_strategies_for_granularity.
  destruct (String.eqb_spec granularity "intraday_minute") as [-> | _];
    [cbn; split; [lia | tauto] | ].
  destruct (String.eqb_spec granularity "intraday_hourly") as [-> | _];
    [cbn; split; [lia | tauto] | ].
  destruct (String.eqb_spec granularity "intraday_half_day") as [-> | _];
    [cbn; split; [lia | tauto] | ].
  destruct (String.eqb_spec granularity "daily") as [-> | _];
    [cbn; split; [lia | tauto] | ].
  cbn. split; [lia | ]. do 4 right. repeat split; reflexivity.
Qed.

Close Scope string_scope.

(** ** The selection of eight strategies *)

Lemma py_index_nat {A : Type} (l : list A) (k : nat) :
  (k < length l)%nat ->
  exists x, nth_error l k = Some x /\ py_index l (Z.of_nat k) = Return x.
Proof.
  intros Hk.
  destruct (nth_error l k) as [x | ] eqn:E;
    [ | apply nth_error_None in E; lia].
  exists x. split; [reflexivity | ].
  unfold py_index.
  replace (Z.of_nat k <? 0) with false by (symmetry; apply Z.ltb_ge; lia).
  replace (0 <=? Z.of_nat k) with true by (symmetry; apply Z.leb_le; lia).
  replace (Z.of_nat k <? Z.of_nat (length l)) with true
    by (symmetry; apply Z.ltb_lt; lia).
  cbn [andb]. rewrite Nat2Z.id, E. reflexivity.
Qed.

(** [int(i * (n / 8))] is the floor of [i * n / 8]. *)
Lemma py_int_eighths (i n : nat) :
  py_int (inject_Z (Z.of_nat i) * (inject_Z (Z.of_nat n) / 8))%Q =
  Z.of_nat (i * n / 8).
Proof.
  rewrite Nat2Z.inj_div, Nat2Z.inj_mul.
  change (Z.of_nat 8) with 8.
  generalize (Z.of_nat i) (Z.of_nat n) (Nat2Z.is_nonneg i) (Nat2Z.is_nonneg n).
  intros a b Ha Hb.
  unfold py_int. cbn [inject_Z Qdiv Qinv Qmult Qnum Qden Pos.mul].
  rewrite Z.mul_1_r.
  apply Z.quot_div_nonneg; lia.
Qed.

Lemma strategy_copy (base : list Strategy) :
  map (fun s : Strategy =>
         match s with (name, amount, freq) => (name, amount, freq) end)
      base = base.
Proof.
  induction base as [ | [[name amount] freq] base IH]; cbn;
    [reflexivity | rewrite IH; reflexivity].
Qed.

Lemma select_loop (base : list Strategy) :
  (8 < length base)%nat ->
  forall (indices : list nat) (strategies : list Strategy),
    Forall (fun i => (i < 8)%nat) indices ->
    exists picked,
      for_each indices
        (fun i strategies =>
           match
             py_index base
               (py_int (inject_Z (Z.of_nat i) *
                        (inject_Z (Z.of_nat (length base)) / 8))%Q)
           with
           | Return s => Return (strategies ++ [s])
           | Raise e => Raise e
           end)
        strategies = Return (strategies ++ picked) /\
      map Some picked =
      map (fun i => nth_error base (i * length base / 8)) indices.
Proof.
  intros Hlen indices.
  induction indices as [ | i rest IH]; intros strategies Hall.
  - exists []. rewrite app_nil_r. split; reflexivity.
  - inversion Hall as [ | ? ? Hi Hrest]; subst.
    cbn [for_each]. rewrite py_int_eighths.
    assert (Hk : (i * length base / 8 < length base)%nat).
    { apply Nat.Div0.div_lt_upper_bound. nia. }
    destruct (py_index_nat base _ Hk) as (x & Ex & ->).
    destruct (IH (strategies ++ [x]) Hrest) as (picked & -> & Epicked).
    exists (x :: picked). split.
    + rewrite <- app_assoc. reflexivity.
    + cbn [map]. rewrite Ex, Epicked. reflexivity.
Qed.

(** C7.  A list of at most eight strategies is returned unchanged; a longer
    one yields exactly the eight entries at the indices
    [floor (i * length / 8)], [i = 0..7], in that order; for a list of
    twelve these are the indices 0, 1, 3, 4, 6, 7, 9, 10. *)
Theorem select_strategies_spec (base : list Strategy) :
  ((length base <= 8)%nat -> select_strategies base = Return base) /\
  ((8 < length base)%nat ->
   exists picked,
     select_strategies base = Return picked /\
     map Some picked =
     map (fun i => nth_error base (i * length base / 8)) (seq 0 8)) /\
  (length base = 12%nat ->
   exists picked,
     select_strategies base = Return picked /\
     map Some picked = map (nth_error base) [0; 1; 3; 4; 6; 7; 9; 10]%nat).
Proof.
  assert (Long : (8 < length base)%nat ->
    exists picked,
      select_strategies base = Return picked /\
      map Some picked =
      map (fun i => nth_error base (i * length base / 8)) (seq 0 8)).
  { intros Hlen. unfold select_strategies.
    replace (length base <=? 8)%nat with false
      by (symmetry; apply Nat.leb_gt; exact Hlen).
    destruct (select_loop base Hlen (range 0 8) []) as (picked & E & Ep).
    - unfold range. cbn. repeat constructor.
    - exists picked. split; [exact E | exact Ep]. }
  split; [ | split; [exact Long | ]].
  - intros Hlen. unfold select_strategies.
    replace (length base <=? 8)%nat with true
      by (symmetry; apply Nat.leb_le; exact Hlen).
    rewrite strategy_copy. reflexivity.
  - intros H12. destruct Long as (picked & E & Ep); [lia | ].
    exists picked. split; [exact E | ].
    rewrite Ep, H12. reflexivity.
Qed.

(** ** The conclusion: best and worst strategy *)

Lemma Qltb_lt (a b : Q) : Qltb a b = true <-> (a < b)%Q.
Proof.
  unfold Qltb. rewrite Qlt_alt.
  destruct (a ?= b)%Q; split; congruence.
Qed.

Lemma Qltb_ge (a b : Q) : Qltb a b = false <-> (b <= a)%Q.
Proof.
  split.
  - intros H. apply Qnot_lt_le. intros Hlt.
    apply Qltb_lt in Hlt. congruence.
  - intros H. destruct (Qltb a b) eqn:E; [ | reflexivity].
    apply Qltb_lt in E. exfalso. exact (Qle_not_lt _ _ H E).
Qed.

Lemma xltb_asym (a b : xnum) : xltb a b = true -> xltb b a = false.
Proof.
  destruct a as [x | | | ], b as [y | | | ]; cbn; try congruence.
  rewrite Qltb_lt, Qltb_ge. apply Qlt_le_weak.
Qed.

(** Among numbers, what lies below [b] lies below whatever is not below
    [b]. *)
Lemma xltb_below (a b c : xnum) :
  is_nan c = false ->
  xltb a b = true -> xltb c b = false -> xltb a c = true.
Proof.
  destruct a as [x | | | ], b as [y | | | ], c as [z | | | ]; cbn;
    try congruence.
  rewrite !Qltb_lt, Qltb_ge. intros _ H1 H2.
  exact (Qlt_le_trans _ _ _ H1 H2).
Qed.

Lemma xltb_above (a b c : xnum) :
  is_nan c = false ->
  xltb b a = true -> xltb b c = false -> xltb c a = true.
Proof.
  destruct a as [x | | | ], b as [y | | | ], c as [z | | | ]; cbn;
    try congruence.
  rewrite !Qltb_lt, Qltb_ge. intros _ H1 H2.
  exact (Qle_lt_trans _ _ _ H2 H1).
Qed.

Section Scan.
Context {A : Type}.
Variable better : xnum -> xnum -> bool.
Variable key : A -> xnum.

Hypothesis better_asym :
  forall a b, better a b = true -> better b a = false.
Hypothesis better_carries :
  forall a b c, is_nan c = false ->
    better a b = true -> better c b = false -> better a c = true.

Lemma scan_by_first_extreme (rest : list A) :
  forall (before mid : list A) (b : A),
    (forall x, In x (before ++ b :: mid ++ rest) ->
               is_nan (key x) = false) ->
    (forall x, In x before -> better (key b) (key x) = true) ->
    (forall x, In x mid -> better (key x) (key b) = false) ->
    first_extreme better key (before ++ b :: mid ++ rest)
      (scan_by better key b rest).
Proof.
  induction rest as [ | x rest IH]; intros before mid b Hnum Hbefore Hmid.
  - cbn [scan_by]. exists before, mid. rewrite app_nil_r. auto.
  - cbn [scan_by]. destruct (better (key x) (key b)) eqn:Hx.
    + assert (E : before ++ b :: mid ++ x :: rest =
                  (before ++ b :: mid) ++ x :: [] ++ rest)
        by (rewrite <- app_assoc; reflexivity).
      rewrite E in *. apply IH.
      * exact Hnum.
      * intros y Hy.
        assert (Hy' : is_nan (key y) = false).
        { apply Hnum. apply in_or_app. left. exact Hy. }
        apply in_app_or in Hy. destruct Hy as [Hy | [<- | Hy]].
        -- apply better_carries with (b := key b); auto.
        -- exact Hx.
        -- apply better_carries with (b := key b); auto.
      * intros y [].
    + assert (E : before ++ b :: mid ++ x :: rest =
                  before ++ b :: (mid ++ [x]) ++ rest)
        by (rewrite <- app_assoc; reflexivity).
      rewrite E in *. apply IH.
      * exact Hnum.
      * exact Hbefore.
      * intros y Hy. apply in_app_or in Hy.
        destruct Hy as [Hy | [<- | []]]; auto.
Qed.
End Scan.

Lemma xgtb_asym (a b : xnum) : xgtb a b = true -> xgtb b a = false.
Proof. unfold xgtb. apply xltb_asym. Qed.

Lemma xgtb_carries (a b c : xnum) :
  is_nan c = false ->
  xgtb a b = true -> xgtb c b = false -> xgtb a c = true.
Proof. unfold xgtb. apply xltb_above. Qed.



(** A [NaN] return is beyond the order: placed first it is kept as best
    although a later entry has a larger return. *)
Lemma conclude_keeps_leading_nan :
  exists c,
    conclude [ ("first"%string, result_with_return NaN);
               ("second"%string, result_with_return (Fin 5)) ] = Return c /\
    return_of (best c) = NaN.
Proof.
  eexists. split; reflexivity.
Qed.

(** ** The granularity detector against its reference definition *)

Lemma detector_loop (df : DataFrame) (d : PricePoint) (k : nat) :
  forall (a : nat) (time_diffs : list Q),
    (1 <= a)%nat -> (a + k <= length df)%nat ->
    for_each (seq a k)
      (fun i time_diffs =>
         match nth_error df i, nth_error df (i - 1) with
         | Some p, Some p' =>
           if Qltb 0 (minutes_between (Date p) (Date p'))
           then Return (time_diffs ++ [minutes_between (Date p) (Date p')])
           else Return time_diffs
         | _, _ => Raise IndexError
         end)
      time_diffs =
    Return (time_diffs ++
            filter (fun x => Qltb 0 x) (map (delta_at df d) (seq a k))).
Proof.
  induction k as [ | k IH]; intros a time_diffs Ha Hlen.
  - cbn. rewrite app_nil_r. reflexivity.
  - cbn [seq for_each map filter].
    rewrite (nth_error_nth' df d (n := a)) by lia.
    rewrite (nth_error_nth' df d (n := a - 1)) by lia.
    fold (delta_at df d a).
    destruct (Qltb 0 (delta_at df d a)).
    + rewrite IH by lia. rewrite <- app_assoc. reflexivity.
    + rewrite IH by lia. reflexivity.
Qed.

Lemma consecutive_deltas_nth (ts : list Timestamp) (d : Timestamp) :
  consecutive_deltas ts =
  map (fun i => minutes_between (nth i ts d) (nth (i - 1) ts d))
      (seq 1 (length ts - 1)).
Proof.
  induction ts as [ | a rest IH]; [reflexivity | ].
  destruct rest as [ | b rest]; [reflexivity | ].
  change (consecutive_deltas (a :: b :: rest))
    with (minutes_between b a :: consecutive_deltas (b :: rest)).
  rewrite IH.
  cbn [length]. replace (S (S (length rest)) - 1)%nat with (S (length rest))
    by lia.
  replace (S (length rest) - 1)%nat with (length rest) by lia.
  cbn [seq map]. f_equal.
  rewrite <- (seq_shift (length rest) 1), map_map.
  apply map_ext_in. intros i Hi. apply in_seq in Hi.
  destruct i as [ | i]; [lia | ].
  cbn [nth Nat.sub]. rewrite Nat.sub_0_r. reflexivity.
Qed.

Lemma sampled_deltas (df : DataFrame) (d : PricePoint) (n : nat) :
  (n <= length df)%nat ->
  consecutive_deltas (firstn n (map Date df)) =
  map (delta_at df d) (seq 1 (n - 1)).
Proof.
  intros Hn.
  rewrite (consecutive_deltas_nth _ (Date d)).
  rewrite length_firstn, length_map, Nat.min_l by exact Hn.
  apply map_ext_in. intros i Hi. apply in_seq in Hi.
  unfold delta_at.
  rewrite !nth_firstn.
  replace (i <? n)%nat with true by (symmetry; apply Nat.ltb_lt; lia).
  replace (i - 1 <? n)%nat with true by (symmetry; apply Nat.ltb_lt; lia).
  rewrite !map_nth. reflexivity.
Qed.

Lemma fold_left_Qplus (xs : list Q) (a : Q) :
  (fold_left Qplus xs a == a + fold_right Qplus 0 xs)%Q.
Proof.
  revert a. induction xs as [ | x xs IH]; intros a; cbn.
  - ring.
  - rewrite IH. ring.
Qed.

Lemma py_sum_mean (xs : list Q) :
  (py_sum xs / inject_Z (Z.of_nat (length xs)) == arithmetic_mean xs)%Q.
Proof.
  unfold py_sum, arithmetic_mean. rewrite fold_left_Qplus.
  rewrite Qplus_0_l. reflexivity.
Qed.

Lemma Qltb_compat (a b c : Q) : (a == b)%Q -> Qltb a c = Qltb b c.
Proof.
  intros E. unfold Qltb. rewrite E. reflexivity.
Qed.


(** ** Daily contributions at a constant price *)

Lemma filter_all {A : Type} (f : A -> bool) (l : list A) :
  (forall x, In x l -> f x = true) -> filter f l = l.
Proof.
  induction l as [ | a l IH]; intros H; cbn; [reflexivity | ].
  rewrite (H a (or_introl eq_refl)), IH; [reflexivity | ].
  intros x Hx. apply H. right. exact Hx.
Qed.

Lemma xdiv_finite (x y : Q) :
  ~ (y == 0)%Q -> xdiv (Fin x) (Fin y) = Fin (x / y)%Q.
Proof.
  intros Hy. unfold xdiv, Qsign.
  destruct (y ?= 0)%Q eqn:E; try reflexivity.
  apply Qeq_alt in E. contradiction.
Qed.

Lemma daily_loop (self : StockInvestmentAnalyzer) (end_dt : Timestamp)
    (amount : Q) :
  valid_ts end_dt ->
  forall (todo done : list PricePoint) (current : Timestamp)
         (investments : list Investment) (fuel : nat),
    valid_ts current ->
    (forall p, In p done ->
       valid_ts (Date p) /\ ts_value (Date p) < ts_value current) ->
    (forall i p, nth_error todo i = Some p ->
       valid_ts (Date p) /\
       ts_value (Date p) = ts_value current + Z.of_nat i * NS_PER_DAY /\
       ~ (Close p == 0)%Q) ->
    ts_value end_dt =
      ts_value current + (Z.of_nat (length todo) - 1) * NS_PER_DAY ->
    (length todo < fuel)%nat ->
    contribution_loop self fuel (done ++ todo) end_dt amount "daily" current
      investments =
    Some (Return (investments ++ map (contribution_at self amount) todo)).
Proof.
  intros Hend.
  assert (HD : 0 < NS_PER_DAY) by reflexivity.
  induction todo as [ | p rest IH];
    intros done current investments fuel Hcur Hdone Htodo Hlast Hfuel;
    (destruct fuel as [ | fuel]; [cbn in Hfuel; lia | ]);
    cbn [contribution_loop];
    rewrite (ts_leb_value current end_dt Hcur Hend).
  - cbn [length] in Hlast.
    replace (ts_value current <=? ts_value end_dt) with false
      by (symmetry; apply Z.leb_gt; lia).
    cbn [map]. rewrite app_nil_r. reflexivity.
  - cbn [length] in Hlast, Hfuel.
    destruct (Htodo 0%nat p eq_refl) as (Hp & Vp & Cp).
    replace (ts_value current <=? ts_value end_dt) with true
      by (symmetry; apply Z.leb_le; lia).
    rewrite filter_app.
    replace (filter (fun q => ts_geb (Date q) current) done)
      with (@nil PricePoint).
    2:{ symmetry. apply filter_nil_iff. intros q Hq.
        destruct (Hdone q Hq) as (Hvq & Hlt).
        unfold ts_geb. rewrite (ts_leb_value current (Date q) Hcur Hvq).
        apply Z.leb_gt. exact Hlt. }
    cbn [app filter].
    replace (ts_geb (Date p) current) with true.
    2:{ symmetry. unfold ts_geb.
        rewrite (ts_leb_value current (Date p) Hcur Hp).
        apply Z.leb_le. lia. }
    rewrite ts_gtb_negb_leb, (ts_leb_value (Date p) end_dt Hp Hend).
    replace (ts_value (Date p) <=? ts_value end_dt) with true
      by (symmetry; apply Z.leb_le; lia).
    cbn [negb]. rewrite (xdiv_finite _ _ Cp).
    change (advance "daily" current)
      with (Some (add_timedelta current (timedelta 1 0 0))).
    destruct (add_timedelta_spec current (timedelta 1 0 0) Hcur)
      as (Hnext & Vnext); [discriminate | ].
    change (timedelta 1 0 0) with NS_PER_DAY in *.
    replace (done ++ p :: rest) with ((done ++ [p]) ++ rest)
      by (rewrite <- app_assoc; reflexivity).
    rewrite IH.
    + rewrite <- app_assoc. reflexivity.
    + exact Hnext.
    + intros q Hq. apply in_app_or in Hq.
      destruct Hq as [Hq | [<- | []]].
      * destruct (Hdone q Hq). split; [assumption | lia].
      * split; [assumption | lia].
    + intros i q Hq. destruct (Htodo (S i) q Hq) as (Hvq & Vq & Cq).
      split; [exact Hvq | split; [lia | exact Cq]].
    + lia.
    + lia.
Qed.

Lemma daily_positions (data : DataFrame) (start : Timestamp) :
  daily_spaced data ->
  hd_error (map Date data) = Some start ->
  forall i p, nth_error data i = Some p ->
    ts_value (Date p) = ts_value start + Z.of_nat i * NS_PER_DAY.
Proof.
  intros Hsp Hhd. induction i as [ | i IH]; intros p Hp.
  - destruct data as [ | p0 data]; [discriminate | ].
    cbn in Hhd, Hp. injection Hhd as <-. injection Hp as <-. lia.
  - destruct (nth_error data i) as [q | ] eqn:Hq.
    + pose proof (Hsp i q p Hq Hp) as Hstep.
      change (timedelta 1 0 0) with NS_PER_DAY in Hstep.
      rewrite (IH q eq_refl) in Hstep. lia.
    + apply nth_error_None in Hq.
      assert (nth_error data (S i) <> None) as Hsome by congruence.
      apply nth_error_Some in Hsome. lia.
Qed.

Lemma sum_shares_finite (self : StockInvestmentAnalyzer) (amount : Q)
    (l : list PricePoint) :
  forall a,
    fold_left xadd (map inv_shares (map (contribution_at self amount) l))
      (Fin a) =
    Fin (fold_left Qplus
           (map (fun p => amount * (1 - commission_rate self) / Close p)%Q l)
           a).
Proof.
  induction l as [ | p l IH]; intros a; cbn; [reflexivity | apply IH].
Qed.

Lemma inject_nat_succ (n : nat) :
  (inject_Z (Z.of_nat (S n)) == inject_Z (Z.of_nat n) + 1)%Q.
Proof.
  rewrite Nat2Z.inj_succ. unfold Z.succ. rewrite inject_Z_plus. reflexivity.
Qed.

Lemma sum_constant_price (net P : Q) (l : list PricePoint) :
  ~ (P == 0)%Q ->
  (forall p, In p l -> (Close p == P)%Q) ->
  forall a,
    (fold_left Qplus (map (fun p => net / Close p) l) a ==
     a + inject_Z (Z.of_nat (length l)) * (net / P))%Q.
Proof.
  intros HP. induction l as [ | p l IH]; intros Hall a.
  - cbn. ring.
  - cbn [map fold_left length].
    rewrite IH by (intros q Hq; apply Hall; right; exact Hq).
    rewrite inject_nat_succ.
    rewrite (Hall p (or_introl eq_refl)). ring.
Qed.

Lemma inject_nat_nonzero (n : nat) :
  (0 < n)%nat -> ~ (inject_Z (Z.of_nat n) == 0)%Q.
Proof.
  intros Hn E. unfold Qeq in E. cbn in E. lia.
Qed.


Lemma sample_data_daily : daily_spaced sample_data.
Proof.
  intros i p q Hp Hq.
  destruct i as [ | [ | i]]; cbn in Hp, Hq.
  - injection Hp as <-. injection Hq as <-. reflexivity.
  - injection Hp as <-. injection Hq as <-. reflexivity.
  - destruct i; discriminate.
Defined.

Lemma sample_data_flat (p : PricePoint) :
  In p sample_data -> valid_ts (Date p) /\ (Close p == 10)%Q.
Proof.
  intros Hp. unfold sample_data in Hp.
  repeat (destruct Hp as [<- | Hp]); try contradiction;
    (split; [apply valid_midnight; reflexivity | reflexivity]).
Defined.


(** ** Remarks on the model *)

(** The spacing of [daily_spaced] is a delta of 1440 minutes. *)
Lemma day_is_1440_minutes (a b : Timestamp) :
  ts_value a - ts_value b = timedelta 1 0 0 <->
  (minutes_between a b == 1440)%Q.
Proof.
  unfold minutes_between.
  generalize (ts_value a - ts_value b). intros d.
  change (timedelta 1 0 0) with 86400000000000.
  unfold Qeq, Qdiv, Qmult, Qinv, inject_Z, NS_PER_SECOND. cbn.
  lia.
Qed.

(** The detector on the sample series. *)
Lemma sample_data_granularity :
  detect_data_granularity sample_data = Return "daily"%string.
Proof. reflexivity. Qed.

(** A frequency outside the twelve codes matches no branch: the cursor
    stays, and the loop cannot end once it has made a contribution. *)
Lemma advance_unrecognised (frequency : string) (t : Timestamp) :
  ~ In frequency frequency_codes -> advance frequency t = Some t.
Proof.
  intros Hnot. unfold advance.
  repeat match goal with
         | |- context [String.eqb frequency ?s] =>
           destruct (String.eqb_spec frequency s) as [-> | _];
             [exfalso; apply Hnot; unfold frequency_codes; cbn; tauto | ]
         end.
  reflexivity.
Qed.

Lemma contribution_loop_unrecognised (self : StockInvestmentAnalyzer)
    (data : DataFrame) (end_dt : Timestamp) (amount : Q) (frequency : string)
    (current : Timestamp) (first : PricePoint) (rest : list PricePoint) :
  ~ In frequency frequency_codes ->
  ts_leb current end_dt = true ->
  filter (fun p => ts_geb (Date p) current) data = first :: rest ->
  ts_gtb (Date first) end_dt = false ->
  forall fuel investments,
    contribution_loop self fuel data end_dt amount frequency current
      investments = None.
Proof.
  intros Hnot Hle Hf Hgt.
  induction fuel as [ | fuel IH]; intros investments; [reflexivity | ].
  cbn [contribution_loop].
  rewrite Hle, Hf, Hgt, (advance_unrecognised frequency current Hnot).
  apply IH.
Qed.

(** The ordinal agrees with [datetime.date(2024, 1, 1).toordinal()]. *)
Lemma toordinal_sample : toordinal (midnight 2024 1 1) = 738886.
Proof. reflexivity. Qed.

(* ================================================================= *)
(** * Part III: further properties of the code *)
(* ================================================================= *)

(** ** The catalogue and the selection *)

Lemma catalogue_cases (granularity : string) :
  get_strategies_for_granularity granularity =
    get_strategies_for_granularity "intraday_minute" \/
  get_strategies_for_granularity granularity =
    get_strategies_for_granularity "intraday_hourly" \/
  get_strategies_for_granularity granularity =
    get_strategies_for_granularity "intraday_half_day" \/
  get_strategies_for_granularity granularity =
    get_strategies_for_granularity "daily" \/
  get_strategies_for_granularity granularity =
    get_strategies_for_granularity "unknown".
Proof.
  unfold get_strategies_for_granularity at 1 3 5 7 9.
  destruct (String.eqb_spec granularity "intraday_minute");
    [left; reflexivity | ].
  destruct (String.eqb_spec granularity "intraday_hourly");
    [right; left; reflexivity | ].
  destruct (String.eqb_spec granularity "intraday_half_day");
    [do 2 right; left; reflexivity | ].
  destruct (String.eqb_spec granularity "daily");
    [do 3 right; left; reflexivity | ].
  do 4 right. reflexivity.
Qed.

(** Whatever the label, the catalogue passes the selection of [run]
    unchanged: the sampling of eight entries is never reached. *)
Theorem catalogue_passes_selection (granularity : string) :
  select_strategies (get_strategies_for_granularity granularity) =
  Return (get_strategies_for_granularity granularity).
Proof.
  destruct (catalogue_cases granularity) as [E | [E | [E | [E | E]]]];
    rewrite E; reflexivity.
Qed.

Lemma fixed_step_advance (frequency : string) (delta : Z) :
  fixed_step frequency = Some delta ->
  0 < delta /\
  In frequency frequency_codes /\
  forall t, advance frequency t = Some (add_timedelta t delta).
Proof.
  unfold fixed_step, advance, frequency_codes.
  repeat match goal with
         | |- context [String.eqb frequency ?s] =>
           destruct (String.eqb_spec frequency s) as [-> | _];
             [intros [= <-]; split; [reflexivity | ];
              split; [cbn; tauto | reflexivity] | ]
         end.
  discriminate.
Qed.





(** ** The detector *)

Lemma detect_by_deltas (df : DataFrame) (d : PricePoint) :
  (2 <= length df)%nat ->
  detect_data_granularity df =
  Return (label_of_deltas
            (filter (fun x => Qltb 0 x)
               (map (delta_at df d)
                    (seq 1 (Nat.min 100 (length df) - 1))))).
Proof.
  intros Hlong. unfold detect_data_granularity.
  replace (length df <? 2)%nat with false
    by (symmetry; apply Nat.ltb_ge; exact Hlong).
  set (n := Nat.min 100 (length df)).
  assert (Hn : (2 <= n <= length df)%nat) by (unfold n; lia).
  unfold range.
  rewrite (detector_loop df d (n - 1) 1 []) by lia.
  cbn [app].
  destruct (filter (fun x => Qltb 0 x) (map (delta_at df d) (seq 1 (n - 1))))
    as [ | x deltas]; [reflexivity | ].
  unfold label_of_deltas, classify_mean.
  change (18 * 60)%Q with 1080%Q. change (36 * 60)%Q with 2160%Q.
  set (avg := (py_sum (x :: deltas) / _)%Q).
  destruct (Qltb avg 45); [reflexivity | ].
  destruct (Qltb avg 90); [reflexivity | ].
  destruct (Qltb avg 1080); [reflexivity | ].
  destruct (Qltb avg 2160); reflexivity.
Qed.

Lemma delta_at_firstn (df : DataFrame) (d : PricePoint) (k i : nat) :
  (i < k)%nat -> delta_at (firstn k df) d i = delta_at df d i.
Proof.
  intros Hi. unfold delta_at. rewrite !nth_firstn.
  replace (i <? k)%nat with true by (symmetry; apply Nat.ltb_lt; lia).
  replace (i - 1 <? k)%nat with true by (symmetry; apply Nat.ltb_lt; lia).
  reflexivity.
Qed.

(** The label depends on the first hundred points only. *)
Theorem detect_first_hundred (df : DataFrame) :
  detect_data_granularity df = detect_data_granularity (firstn 100 df).
Proof.
  destruct (Nat.ltb_spec (length df) 2) as [Hshort | Hlong].
  - rewrite firstn_all2 by lia. reflexivity.
  - destruct df as [ | d df']; [cbn in Hlong; lia | ].
    set (df := d :: df') in *.
    rewrite (detect_by_deltas df d Hlong).
    rewrite (detect_by_deltas (firstn 100 df) d)
      by (rewrite length_firstn; lia).
    rewrite length_firstn.
    replace (Nat.min 100 (Nat.min 100 (length df)))
      with (Nat.min 100 (length df)) by lia.
    f_equal. f_equal. f_equal.
    apply map_ext_in. intros i Hi. apply in_seq in Hi.
    symmetry. apply delta_at_firstn. lia.
Qed.

Lemma minutes_between_positive (a b : Timestamp) :
  Qltb 0 (minutes_between a b) = (ts_value b <? ts_value a).
Proof.
  unfold minutes_between.
  replace (ts_value b <? ts_value a) with (0 <? ts_value a - ts_value b)
    by (destruct (Z.ltb_spec (ts_value b) (ts_value a));
        [apply Z.ltb_lt | apply Z.ltb_ge]; lia).
  destruct (ts_value a - ts_value b); reflexivity.
Qed.

Lemma delta_at_nth_error (df : DataFrame) (d : PricePoint) (i : nat) :
  (1 <= i < length df)%nat ->
  exists p q,
    nth_error df (i - 1) = Some p /\ nth_error df (S (i - 1)) = Some q /\
    delta_at df d i = minutes_between (Date q) (Date p).
Proof.
  intros Hi. exists (nth (i - 1) df d), (nth i df d).
  replace (S (i - 1)) with i by lia.
  split; [apply nth_error_nth'; lia | ].
  split; [apply nth_error_nth'; lia | reflexivity].
Qed.

(** A series whose sampled timestamps never move forward (duplicates, or a
    frame in descending order) has no positive delta: the label is
    [unknown], as for a series of fewer than two points. *)
Theorem detect_without_progress (df : DataFrame) :
  (forall i p q, (S i < 100)%nat ->
     nth_error df i = Some p -> nth_error df (S i) = Some q ->
     ts_value (Date q) <= ts_value (Date p)) ->
  detect_data_granularity df = Return "unknown"%string.
Proof.
  intros Hflat.
  destruct (Nat.ltb_spec (length df) 2) as [Hshort | Hlong].
  - unfold detect_data_granularity.
    replace (length df <? 2)%nat with true
      by (symmetry; apply Nat.ltb_lt; exact Hshort).
    reflexivity.
  - destruct df as [ | d df']; [cbn in Hlong; lia | ].
    set (df := d :: df') in *.
    rewrite (detect_by_deltas df d Hlong).
    replace (filter _ _) with (@nil Q); [reflexivity | ].
    symmetry. apply filter_nil_iff. intros x Hx.
    apply in_map_iff in Hx. destruct Hx as (i & <- & Hi).
    apply in_seq in Hi.
    destruct (delta_at_nth_error df d i) as (p & q & Hp & Hq & ->); [lia | ].
    rewrite minutes_between_positive. apply Z.ltb_ge.
    apply (Hflat (i - 1)%nat p q); [lia | exact Hp | exact Hq].
Qed.

Lemma detect_without_progress_witness :
  detect_data_granularity
    [ flat_point (midnight 2024 1 1) 10; flat_point (midnight 2024 1 1) 11;
      flat_point (midnight 2024 1 1) 12 ] = Return "unknown"%string.
Proof.
  apply detect_without_progress.
  intros i p q _ Hp Hq.
  destruct i as [ | [ | i]]; cbn in Hp, Hq.
  - injection Hp as <-. injection Hq as <-. cbn. lia.
  - injection Hp as <-. injection Hq as <-. cbn. lia.
  - destruct i; discriminate.
Defined.

Lemma py_sum_constant (l : list Q) (delta : Q) :
  (forall x, In x l -> (x == delta)%Q) ->
  (py_sum l == inject_Z (Z.of_nat (length l)) * delta)%Q.
Proof.
  intros Hall. unfold py_sum. rewrite fold_left_Qplus, Qplus_0_l.
  induction l as [ | x l IH].
  - cbn. ring.
  - cbn [fold_right length]. rewrite inject_nat_succ.
    rewrite (Hall x (or_introl eq_refl)).
    rewrite IH by (intros y Hy; apply Hall; right; exact Hy). ring.
Qed.

Lemma classify_mean_compat (a b : Q) :
  (a == b)%Q -> classify_mean a = classify_mean b.
Proof.
  intros E. unfold classify_mean.
  rewrite !(Qltb_compat a b _ E). reflexivity.
Qed.



(** ** The simulator: what the loop buys *)

(** The outcome of the loop is fixed by the series, the end date, the
    frequency and the cursor: the points bought at, if the loop returns, do
    not depend on the amount, the commission rate or the entries already
    made. *)
Lemma loop_schedule (data : DataFrame) (end_dt : Timestamp)
    (frequency : string) (fuel : nat) :
  forall current,
    (exists chosen,
       Forall (fun p => In p data /\ ts_leb (Date p) end_dt = true) chosen /\
       forall self amount investments,
         contribution_loop self fuel data end_dt amount frequency current
           investments =
         Some (Return (investments ++ map (investment_at self amount) chosen)))
    \/ (forall self amount investments,
          contribution_loop self fuel data end_dt amount frequency current
            investments = None)
    \/ (forall self amount investments,
          contribution_loop self fuel data end_dt amount frequency current
            investments = Some (Raise ValueError)).
Proof.
  induction fuel as [ | fuel IH]; intros current.
  - right. left. reflexivity.
  - cbn [contribution_loop].
    destruct (ts_leb current end_dt);
      [ | left; exists []; split; [constructor | ];
          intros; rewrite app_nil_r; reflexivity].
    destruct (filter (fun p => ts_geb (Date p) current) data)
      as [ | first rest] eqn:Hf;
      [left; exists []; split; [constructor | ];
       intros; rewrite app_nil_r; reflexivity | ].
    rewrite ts_gtb_negb_leb.
    destruct (ts_leb (Date first) end_dt) eqn:Hle; cbn [negb];
      [ | left; exists []; split; [constructor | ];
          intros; rewrite app_nil_r; reflexivity].
    destruct (advance frequency current) as [current' | ];
      [ | right; right; reflexivity].
    destruct (IH current') as [(chosen & Hall & E) | [E | E]].
    + left. exists (first :: chosen). split.
      * constructor; [ | exact Hall]. split; [ | exact Hle].
        assert (H : In first (first :: rest)) by (left; reflexivity).
        rewrite <- Hf in H. apply filter_In in H. tauto.
      * intros self amount investments. rewrite E.
        rewrite <- app_assoc. reflexivity.
    + right. left. intros. apply E.
    + right. right. intros. apply E.
Qed.

Lemma loop_returns_schedule (self : StockInvestmentAnalyzer) (fuel : nat)
    (data : DataFrame) (end_dt : Timestamp) (amount : Q) (frequency : string)
    (current : Timestamp) (investments result : list Investment) :
  contribution_loop self fuel data end_dt amount frequency current
    investments = Some (Return result) ->
  exists chosen,
    Forall (fun p => In p data /\ ts_leb (Date p) end_dt = true) chosen /\
    forall self' amount' investments',
      contribution_loop self' fuel data end_dt amount' frequency current
        investments' =
      Some (Return (investments' ++ map (investment_at self' amount') chosen)).
Proof.
  intros H.
  destruct (loop_schedule data end_dt frequency fuel current)
    as [(chosen & Hall & E) | [E | E]].
  - exists chosen. split; assumption.
  - rewrite E in H. discriminate.
  - rewrite E in H. discriminate.
Qed.

Lemma summarize_returns (data : DataFrame) (end_dt : Timestamp) (amount : Q)
    (investments : list Investment) (r : SimulationResult) :
  summarize data end_dt amount investments = Return r ->
  exists front last,
    filter (fun p => ts_leb (Date p) end_dt) data = front ++ [last] /\
    r = {| count := length investments;
           invested := (inject_Z (Z.of_nat (length investments)) * amount)%Q;
           commission := py_sum (map inv_commission investments);
           shares := sum_shares investments;
           value := xmul (sum_shares investments) (Fin (Close last));
           return_ :=
             xmul (xdiv (xsub (xmul (sum_shares investments)
                                    (Fin (Close last)))
                              (Fin (inject_Z (Z.of_nat (length investments)) *
                                    amount)%Q))
                        (Fin (inject_Z (Z.of_nat (length investments)) *
                              amount)%Q))
                  (Fin 100);
           final_price := Close last |}.
Proof.
  unfold summarize.
  destruct (filter (fun p => ts_leb (Date p) end_dt) data) as [ | a l] eqn:Hf.
  - discriminate.
  - destruct (exists_last (l := a :: l)) as (front & last & E);
      [discriminate | ].
    rewrite E, py_index_last. intros [= <-].
    exists front, last. split; reflexivity.
Qed.

Lemma simulate_returns (self : StockInvestmentAnalyzer) (fuel : nat)
    (data : DataFrame) (start end_ : Timestamp) (amount : Q)
    (frequency : string) (r : SimulationResult) :
  simulate_investment self fuel data start end_ amount frequency =
    Some (Return r) ->
  exists investments,
    contribution_loop self fuel data end_ amount frequency start [] =
      Some (Return investments) /\
    summarize data end_ amount investments = Return r.
Proof.
  unfold simulate_investment.
  destruct (contribution_loop self fuel data end_ amount frequency start [])
    as [[investments | e] | ]; try discriminate.
  intros [= H]. exists investments. split; [reflexivity | exact H].
Qed.

(** The final price of a result is the close of the last row, in frame
    order, dated at or before the end date; so all the simulations of one
    run, whatever their frequency, amount or start, report the same final
    price. *)
Theorem final_price_shared (self self' : StockInvestmentAnalyzer)
    (fuel fuel' : nat) (data : DataFrame) (start start' end_ : Timestamp)
    (amount amount' : Q) (frequency frequency' : string)
    (r r' : SimulationResult) :
  simulate_investment self fuel data start end_ amount frequency =
    Some (Return r) ->
  simulate_investment self' fuel' data start' end_ amount' frequency' =
    Some (Return r') ->
  final_price r = final_price r' /\
  exists front last,
    filter (fun p => ts_leb (Date p) end_) data = front ++ [last] /\
    final_price r = Close last.
Proof.
  intros H H'.
  destruct (simulate_returns _ _ _ _ _ _ _ _ H) as (inv & _ & S).
  destruct (simulate_returns _ _ _ _ _ _ _ _ H') as (inv' & _ & S').
  destruct (summarize_returns _ _ _ _ _ S) as (front & last & Hf & ->).
  destruct (summarize_returns _ _ _ _ _ S') as (front' & last' & Hf' & ->).
  cbn [final_price]. rewrite Hf in Hf'.
  apply app_inj_tail in Hf'. destruct Hf' as (_ & <-).
  split; [reflexivity | ]. exists front, last. split; [exact Hf | reflexivity].
Qed.

Lemma final_price_shared_witness :
  exists r r',
    simulate_investment sample_analyzer 4 sample_data (midnight 2024 1 1)
      (midnight 2024 1 3) 24 "daily" = Some (Return r) /\
    simulate_investment sample_analyzer 2 sample_data (midnight 2024 1 2)
      (midnight 2024 1 3) 168 "weekly" = Some (Return r') /\
    final_price r = final_price r'.
Proof.
  eexists. eexists.
  split; [reflexivity | split; [reflexivity | ]].
  refine (proj1 (final_price_shared sample_analyzer sample_analyzer 4 2
                   sample_data (midnight 2024 1 1) (midnight 2024 1 2)
                   (midnight 2024 1 3) 24 168 "daily" "weekly" _ _ _ _));
    reflexivity.
Defined.

(** The number of contributions is a matter of the series, the date range
    and the frequency alone: another amount or commission rate gives a
    result too, with the same count. *)
Theorem count_ignores_amount (self self' : StockInvestmentAnalyzer)
    (fuel : nat) (data : DataFrame) (start end_ : Timestamp)
    (amount amount' : Q) (frequency : string) (r : SimulationResult) :
  simulate_investment self fuel data start end_ amount frequency =
    Some (Return r) ->
  exists r',
    simulate_investment self' fuel data start end_ amount' frequency =
      Some (Return r') /\
    count r' = count r.
Proof.
  intros H.
  destruct (simulate_returns _ _ _ _ _ _ _ _ H) as (inv & Hloop & S).
  destruct (loop_returns_schedule _ _ _ _ _ _ _ _ _ Hloop)
    as (chosen & _ & E).
  destruct (summarize_returns _ _ _ _ _ S) as (front & last & Hf & ->).
  unfold simulate_investment. rewrite (E self' amount' []).
  rewrite (E self amount []) in Hloop. injection Hloop as <-.
  unfold summarize. rewrite Hf, py_index_last.
  eexists. split; [reflexivity | ].
  cbn [count app]. rewrite !length_map. reflexivity.
Qed.

Lemma count_ignores_amount_witness :
  exists r',
    simulate_investment (mkAnalyzer (5 # 100)) 4 sample_data
      (midnight 2024 1 1) (midnight 2024 1 3) 1000 "daily" =
      Some (Return r') /\
    count r' = 3%nat.
Proof.
  refine (count_ignores_amount sample_analyzer (mkAnalyzer (5 # 100)) 4
            sample_data (midnight 2024 1 1) (midnight 2024 1 3) 24 1000
            "daily"
            (mkResult 3 _ _ _ _ _ _) _).
  reflexivity.
Defined.



(** ** The simulator: the return does not depend on the amount *)

Lemma investment_at_finite (self : StockInvestmentAnalyzer) (amount : Q)
    (chosen : list PricePoint) :
  (forall p, In p chosen -> ~ (Close p == 0)%Q) ->
  map (investment_at self amount) chosen =
  map (contribution_at self amount) chosen.
Proof.
  intros Hall. apply map_ext_in. intros p Hp.
  unfold investment_at, contribution_at.
  rewrite (xdiv_finite _ _ (Hall p Hp)). reflexivity.
Qed.

Lemma shares_scale (c amount : Q) (chosen : list PricePoint) :
  (forall p, In p chosen -> ~ (Close p == 0)%Q) ->
  forall a,
    (fold_left Qplus (map (fun p => amount * (1 - c) / Close p) chosen) a ==
     a + amount * unit_shares c chosen)%Q.
Proof.
  induction chosen as [ | p chosen IH]; intros Hall a.
  - cbn. ring.
  - cbn [map fold_left unit_shares fold_right].
    rewrite IH by (intros q Hq; apply Hall; right; exact Hq).
    fold (unit_shares c chosen). field.
    apply Hall. left. reflexivity.
Qed.



(** ** The simulator: when nothing is bought, and how much at most *)

(** The loop returns without a contribution exactly when its first round
    breaks: the start date lies after the end date, or no row is dated at
    or after the start date, or the first such row is dated after the end
    date.  Frequency, amount and commission play no part: the strategies
    of one run are without contribution all together or not at all. *)
Theorem no_contribution_iff (self : StockInvestmentAnalyzer) (fuel : nat)
    (data : DataFrame) (start end_ : Timestamp) (amount : Q)
    (frequency : string) :
  contribution_loop self (S fuel) data end_ amount frequency start [] =
    Some (Return []) <->
  (ts_leb start end_ = false \/
   match filter (fun p => ts_geb (Date p) start) data with
   | [] => True
   | first :: _ => ts_gtb (Date first) end_ = true
   end).
Proof.
  cbn [contribution_loop].
  destruct (ts_leb start end_); [ | split; auto].
  destruct (filter (fun p => ts_geb (Date p) start) data) as [ | first rest];
    [split; auto | ].
  destruct (ts_gtb (Date first) end_); [split; auto | ].
  split; [ | intros [H | H]; discriminate].
  intros H. exfalso.
  destruct (advance frequency start) as [current' | ]; [ | discriminate].
  destruct (loop_returns_schedule _ _ _ _ _ _ _ _ _ H) as (chosen & _ & E).
  rewrite E in H. cbn [app] in H. discriminate H.
Qed.

Lemma fixed_step_count (self : StockInvestmentAnalyzer) (data : DataFrame)
    (end_dt : Timestamp) (amount : Q) (frequency : string) (delta : Z) :
  fixed_step frequency = Some delta -> valid_ts end_dt ->
  forall fuel current investments result,
    valid_ts current ->
    contribution_loop self fuel data end_dt amount frequency current
      investments = Some (Return result) ->
    length result = length investments \/
    (Z.of_nat (length result) - Z.of_nat (length investments) - 1) * delta <=
    ts_value end_dt - ts_value current.
Proof.
  intros Hstep Hend.
  destruct (fixed_step_advance _ _ Hstep) as (Hpos & _ & Hadv).
  induction fuel as [ | fuel IH]; intros current investments result Hcur H;
    [discriminate | ].
  cbn [contribution_loop] in H.
  rewrite (ts_leb_value current end_dt Hcur Hend) in H.
  destruct (Z.leb_spec (ts_value current) (ts_value end_dt)) as [Hle | Hgt];
    [ | injection H as <-; left; reflexivity].
  destruct (filter _ data) as [ | first rest];
    [injection H as <-; left; reflexivity | ].
  destruct (ts_gtb (Date first) end_dt);
    [injection H as <-; left; reflexivity | ].
  rewrite Hadv in H.
  destruct (add_timedelta_spec current delta Hcur) as (Hnext & Vnext);
    [lia | ].
  right.
  destruct (IH _ _ _ Hnext H) as [E | B].
  - rewrite E, length_app. cbn [length]. lia.
  - rewrite length_app in B. cbn [length] in B.
    rewrite Vnext in B. nia.
Qed.

(** With a frequency of fixed duration the contributions are at least one
    step apart: [n] contributions need [n - 1] steps between the start and
    the end date. *)
Theorem fixed_step_count_bound (self : StockInvestmentAnalyzer) (fuel : nat)
    (data : DataFrame) (start end_ : Timestamp) (amount : Q)
    (frequency : string) (delta : Z) (r : SimulationResult) :
  fixed_step frequency = Some delta ->
  valid_ts start -> valid_ts end_ ->
  simulate_investment self fuel data start end_ amount frequency =
    Some (Return r) ->
  count r = 0%nat \/
  (Z.of_nat (count r) - 1) * delta <= ts_value end_ - ts_value start.
Proof.
  intros Hstep Hstart Hend H.
  destruct (simulate_returns _ _ _ _ _ _ _ _ H) as (inv & Hloop & S).
  destruct (summarize_returns _ _ _ _ _ S) as (front & last & _ & ->).
  cbn [count].
  destruct (fixed_step_count self data end_ amount frequency delta Hstep Hend
              fuel start [] inv Hstart Hloop) as [E | B].
  - left. exact E.
  - right. cbn [length] in B. lia.
Qed.

Lemma fixed_step_count_bound_witness :
  exists r,
    simulate_investment sample_analyzer 4 sample_data (midnight 2024 1 1)
      (midnight 2024 1 3) 24 "daily" = Some (Return r) /\
    (count r = 0%nat \/
     (Z.of_nat (count r) - 1) * timedelta 1 0 0 <=
     ts_value (midnight 2024 1 3) - ts_value (midnight 2024 1 1)).
Proof.
  eexists. split; [reflexivity | ].
  refine (fixed_step_count_bound sample_analyzer 4 sample_data
            (midnight 2024 1 1) (midnight 2024 1 3) 24 "daily"
            (timedelta 1 0 0) _ _ _ _ _).
  - reflexivity.
  - apply valid_midnight; reflexivity.
  - apply valid_midnight; reflexivity.
  - reflexivity.
Defined.

(** ** The simulator: exceptions *)

Lemma advance_keeps_valid (frequency : string) (t : Timestamp) :
  valid_ts t ->
  exists t', advance frequency t = Some t' /\ valid_ts t'.
Proof.
  intros Hv.
  destruct (in_dec string_dec frequency frequency_codes) as [Hin | Hnot].
  - destruct (advance_later frequency t Hin Hv) as (t' & E & Hv' & _).
    exists t'. split; assumption.
  - exists t. split; [apply advance_unrecognised; exact Hnot | exact Hv].
Qed.

Lemma contribution_loop_no_raise (self : StockInvestmentAnalyzer)
    (data : DataFrame) (end_dt : Timestamp) (amount : Q) (frequency : string)
    (fuel : nat) :
  forall current investments e,
    valid_ts current ->
    contribution_loop self fuel data end_dt amount frequency current
      investments <> Some (Raise e).
Proof.
  induction fuel as [ | fuel IH]; intros current investments e Hcur;
    cbn [contribution_loop]; [discriminate | ].
  destruct (ts_leb current end_dt); [ | discriminate].
  destruct (filter _ data) as [ | first rest]; [discriminate | ].
  destruct (ts_gtb (Date first) end_dt); [discriminate | ].
  destruct (advance_keeps_valid frequency current Hcur) as (t' & -> & Hv').
  apply IH. exact Hv'.
Qed.



Lemma contribution_loop_unrecognised_witness :
  contribution_loop sample_analyzer 50 sample_data (midnight 2024 1 3)
    24 "fortnightly" (midnight 2024 1 1) [] = None.
Proof.
  refine (contribution_loop_unrecognised sample_analyzer sample_data
            (midnight 2024 1 3) 24 "fortnightly" (midnight 2024 1 1)
            (flat_point (midnight 2024 1 1) 10) _ _ _ _ _ 50%nat []).
  - unfold frequency_codes. cbn.
    intros H. repeat (destruct H as [H | H]; [discriminate | ]). exact H.
  - reflexivity.
  - reflexivity.
  - reflexivity.
Defined.

(** ** The conclusion: the spread *)

Lemma first_extreme_In {A : Type} (better : xnum -> xnum -> bool)
    (key : A -> xnum) (l : list A) (e : A) :
  first_extreme better key l e -> In e l.
Proof.
  intros (before & after & -> & _). apply in_or_app. right. left. reflexivity.
Qed.

(** The best entry is no worse than any entry. *)
Lemma first_extreme_bound {A : Type} (key : A -> xnum) (l : list A) (e x : A) :
  first_extreme xgtb key l e -> In x l -> xltb (key e) (key x) = false.
Proof.
  intros (before & after & -> & Hb & Ha) Hx.
  apply in_app_or in Hx. destruct Hx as [Hx | [<- | Hx]].
  - apply xltb_asym. exact (Hb x Hx).
  - destruct (key e) as [q | | | ]; cbn; try reflexivity.
    apply Qltb_ge. apply Qle_refl.
  - exact (Ha x Hx).
Qed.



(** ** Calendar steps keep an early day of the month *)



(** ** [analyze_data] *)

Lemma detect_returns (df : DataFrame) :
  exists label, detect_data_granularity df = Return label.
Proof.
  destruct (Nat.ltb_spec (length df) 2) as [Hshort | Hlong].
  - exists "unknown"%string. unfold detect_data_granularity.
    replace (length df <? 2)%nat with true
      by (symmetry; apply Nat.ltb_lt; exact Hshort).
    reflexivity.
  - destruct df as [ | d df']; [cbn in Hlong; lia | ].
    eexists. apply (detect_by_deltas (d :: df') d Hlong).
Qed.

Lemma py_index_first {A : Type} (x : A) (l : list A) :
  py_index (x :: l) 0 = Return x.
Proof.
  destruct (py_index_nat (x :: l) 0) as (y & E & H); [cbn; lia | ].
  cbn in E. injection E as <-. exact H.
Qed.

Lemma fold_ts_max (l : list Timestamp) :
  forall seed,
    valid_ts seed -> (forall t, In t l -> valid_ts t) ->
    let r := fold_left ts_max l seed in
    In r (seed :: l) /\
    forall t, In t (seed :: l) -> ts_value t <= ts_value r.
Proof.
  induction l as [ | a l IH]; intros seed Hseed Hall; cbn [fold_left].
  - split; [left; reflexivity | ]. intros t [<- | []]. lia.
  - assert (Ha : valid_ts a) by (apply Hall; left; reflexivity).
    assert (Hm : valid_ts (ts_max seed a) /\
                 (ts_max seed a = seed \/ ts_max seed a = a) /\
                 ts_value seed <= ts_value (ts_max seed a) /\
                 ts_value a <= ts_value (ts_max seed a)).
    { unfold ts_max. rewrite (ts_ltb_value seed a Hseed Ha).
      destruct (Z.ltb_spec (ts_value seed) (ts_value a));
        (split; [assumption | split; [auto | lia]]). }
    destruct Hm as (Hv & Hor & H1 & H2).
    destruct (IH (ts_max seed a) Hv
                (fun t Ht => Hall t (or_intror Ht))) as (Hin & Hle).
    split.
    + destruct Hin as [E | Hin]; [ | right; right; exact Hin].
      rewrite <- E. destruct Hor as [-> | ->];
        [left; reflexivity | right; left; reflexivity].
    + intros t [<- | [<- | Ht]].
      * specialize (Hle _ (or_introl eq_refl)). lia.
      * specialize (Hle _ (or_introl eq_refl)). lia.
      * apply Hle. right. exact Ht.
Qed.

Lemma fold_ts_min (l : list Timestamp) :
  forall seed,
    valid_ts seed -> (forall t, In t l -> valid_ts t) ->
    let r := fold_left ts_min l seed in
    In r (seed :: l) /\
    forall t, In t (seed :: l) -> ts_value r <= ts_value t.
Proof.
  induction l as [ | a l IH]; intros seed Hseed Hall; cbn [fold_left].
  - split; [left; reflexivity | ]. intros t [<- | []]. lia.
  - assert (Ha : valid_ts a) by (apply Hall; left; reflexivity).
    assert (Hm : valid_ts (ts_min seed a) /\
                 (ts_min seed a = seed \/ ts_min seed a = a) /\
                 ts_value (ts_min seed a) <= ts_value seed /\
                 ts_value (ts_min seed a) <= ts_value a).
    { unfold ts_min. rewrite (ts_ltb_value a seed Ha Hseed).
      destruct (Z.ltb_spec (ts_value a) (ts_value seed));
        (split; [assumption | split; [auto | lia]]). }
    destruct Hm as (Hv & Hor & H1 & H2).
    destruct (IH (ts_min seed a) Hv
                (fun t Ht => Hall t (or_intror Ht))) as (Hin & Hle).
    split.
    + destruct Hin as [E | Hin]; [ | right; right; exact Hin].
      rewrite <- E. destruct Hor as [-> | ->];
        [left; reflexivity | right; left; reflexivity].
    + intros t [<- | [<- | Ht]].
      * specialize (Hle _ (or_introl eq_refl)). lia.
      * specialize (Hle _ (or_introl eq_refl)). lia.
      * apply Hle. right. exact Ht.
Qed.

Lemma fold_q_min (l : list Q) :
  forall seed x, In x (seed :: l) -> (fold_left q_min l seed <= x)%Q.
Proof.
  induction l as [ | a l IH]; intros seed x Hx; cbn [fold_left].
  - destruct Hx as [<- | []]. apply Qle_refl.
  - assert (Hm : (q_min seed a <= seed)%Q /\ (q_min seed a <= a)%Q).
    { unfold q_min. destruct (Qltb a seed) eqn:E.
      - apply Qltb_lt in E. split; [apply Qlt_le_weak; exact E | apply Qle_refl].
      - apply Qltb_ge in E. split; [apply Qle_refl | exact E]. }
    destruct Hx as [<- | [<- | Hx]].
    + eapply Qle_trans; [apply (IH _ _ (or_introl eq_refl)) | apply Hm].
    + eapply Qle_trans; [apply (IH _ _ (or_introl eq_refl)) | apply Hm].
    + apply IH. right. exact Hx.
Qed.

Lemma fold_q_max (l : list Q) :
  forall seed x, In x (seed :: l) -> (x <= fold_left q_max l seed)%Q.
Proof.
  induction l as [ | a l IH]; intros seed x Hx; cbn [fold_left].
  - destruct Hx as [<- | []]. apply Qle_refl.
  - assert (Hm : (seed <= q_max seed a)%Q /\ (a <= q_max seed a)%Q).
    { unfold q_max. destruct (Qltb seed a) eqn:E.
      - apply Qltb_lt in E. split; [apply Qlt_le_weak; exact E | apply Qle_refl].
      - apply Qltb_ge in E. split; [apply Qle_refl | exact E]. }
    destruct Hx as [<- | [<- | Hx]].
    + eapply Qle_trans; [apply Hm | apply (IH _ _ (or_introl eq_refl))].
    + eapply Qle_trans; [apply Hm | apply (IH _ _ (or_introl eq_refl))].
    + apply IH. right. exact Hx.
Qed.

(** The summary of a frame: what [analyze_data] returns on a non-empty
    frame, field by field. *)
Lemma analyze_data_returns (float_pow : xnum -> Q -> xnum) (df : DataFrame) :
  df <> [] ->
  exists first latest label info,
    hd_error df = Some first /\
    detect_data_granularity df = Return label /\
    analyze_data float_pow df = Return info /\
    start_date info = fold_left ts_min (map Date df) (Date first) /\
    end_date info = fold_left ts_max (map Date df) (Date first) /\
    total_days info = length df /\
    min_price info = fold_left q_min (map Low df) (Low first) /\
    max_price info = fold_left q_max (map High df) (High first) /\
    latest_price info = Close latest /\
    granularity info = label.
Proof.
  intros Hne. destruct df as [ | first rest]; [congruence | ].
  destruct (exists_last (l := first :: rest)) as (front & latest & E);
    [discriminate | ].
  destruct (detect_returns (first :: rest)) as (label & Hd).
  assert (Hlast : py_index (first :: rest) (-1) = Return latest)
    by (rewrite E; apply py_index_last).
  unfold analyze_data. rewrite py_index_first, Hlast, Hd.
  exists first, latest, label. eexists.
  repeat split.
Qed.

Lemma hd_error_In {A : Type} (l : list A) (x : A) :
  hd_error l = Some x -> In x l.
Proof.
  destruct l as [ | a l]; [discriminate | ].
  intros [= <-]. left. reflexivity.
Qed.

(** On a non-empty frame of valid timestamps [analyze_data] returns: the
    start and end dates are dates of rows and enclose the date of every
    row, in whatever order the rows come; the price range encloses the low
    and the high of every row; [total_days] is the number of rows; the
    granularity is the label of the detector. *)
Theorem analyze_data_range (float_pow : xnum -> Q -> xnum) (df : DataFrame) :
  df <> [] ->
  (forall p, In p df -> valid_ts (Date p)) ->
  exists info,
    analyze_data float_pow df = Return info /\
    total_days info = length df /\
    detect_data_granularity df = Return (granularity info) /\
    (exists p, In p df /\ Date p = start_date info) /\
    (exists p, In p df /\ Date p = end_date info) /\
    forall p, In p df ->
      ts_leb (start_date info) (Date p) = true /\
      ts_leb (Date p) (end_date info) = true /\
      (min_price info <= Low p)%Q /\ (High p <= max_price info)%Q.
Proof.
  intros Hne Hvalid.
  destruct (analyze_data_returns float_pow df Hne)
    as (first & latest & label & info & Hhd & Hd & Ha & Hs & He & Ht & Hlo &
        Hhi & _ & Hg).
  pose proof (hd_error_In _ _ Hhd) as Hfirst.
  assert (Hdates : forall t, In t (map Date df) -> valid_ts t).
  { intros t Ht'. apply in_map_iff in Ht'. destruct Ht' as (p & <- & Hp).
    apply Hvalid. exact Hp. }
  assert (Hrow : forall t, In t (Date first :: map Date df) ->
                   exists p, In p df /\ Date p = t).
  { intros t [<- | Ht'].
    - exists first. split; [exact Hfirst | reflexivity].
    - apply in_map_iff in Ht'. destruct Ht' as (p & <- & Hp).
      exists p. split; [exact Hp | reflexivity]. }
  destruct (fold_ts_min (map Date df) (Date first) (Hvalid _ Hfirst) Hdates)
    as (Hmin_in & Hmin).
  destruct (fold_ts_max (map Date df) (Date first) (Hvalid _ Hfirst) Hdates)
    as (Hmax_in & Hmax).
  rewrite <- Hs in Hmin_in, Hmin. rewrite <- He in Hmax_in, Hmax.
  destruct (Hrow _ Hmin_in) as (pmin & Hpmin & Emin).
  destruct (Hrow _ Hmax_in) as (pmax & Hpmax & Emax).
  exists info. split; [exact Ha | ]. split; [exact Ht | ].
  split; [rewrite Hg; exact Hd | ].
  split; [exists pmin; split; assumption | ].
  split; [exists pmax; split; assumption | ].
  intros p Hp.
  assert (Hin : In (Date p) (Date first :: map Date df))
    by (right; apply in_map; exact Hp).
  assert (Vmin : valid_ts (start_date info))
    by (rewrite <- Emin; apply Hvalid; exact Hpmin).
  assert (Vmax : valid_ts (end_date info))
    by (rewrite <- Emax; apply Hvalid; exact Hpmax).
  rewrite (ts_leb_value _ _ Vmin (Hvalid p Hp)).
  rewrite (ts_leb_value _ _ (Hvalid p Hp) Vmax).
  split; [apply Z.leb_le; apply Hmin; exact Hin | ].
  split; [apply Z.leb_le; apply Hmax; exact Hin | ].
  split.
  - rewrite Hlo. apply fold_q_min. right. apply in_map. exact Hp.
  - rewrite Hhi. apply fold_q_max. right. apply in_map. exact Hp.
Qed.

Lemma analyze_data_range_witness :
  exists info,
    analyze_data (fun x _ => x) sample_data = Return info /\
    total_days info = 3%nat /\
    start_date info = midnight 2024 1 1 /\
    end_date info = midnight 2024 1 3.
Proof.
  destruct (analyze_data_range (fun x _ => x) sample_data) as (info & H).
  - discriminate.
  - intros p Hp. apply (proj1 (sample_data_flat p Hp)).
  - exists info. destruct H as (Ha & Ht & _).
    split; [exact Ha | ]. split; [exact Ht | ].
    vm_compute in Ha. injection Ha as <-. split; reflexivity.
Defined.

Lemma years_positive (days : Z) :
  Qltb 0 (inject_Z days / (36525 # 100)) = (0 <? days).
Proof.
  destruct days; reflexivity.
Qed.

(** A frame whose dates span less than one full day gets the annual return
    0, whatever its prices: the guard of the division by the years. *)
Theorem annual_return_guard (float_pow : xnum -> Q -> xnum) (df : DataFrame)
    (info : DataInfo) :
  analyze_data float_pow df = Return info ->
  ts_value (end_date info) - ts_value (start_date info) < NS_PER_DAY ->
  annual_return info = Fin 0.
Proof.
  unfold analyze_data.
  destruct (py_index df 0) as [first | e]; [ | discriminate].
  destruct (py_index df (-1)) as [latest | e]; [ | discriminate].
  destruct (detect_data_granularity df) as [label | e]; [ | discriminate].
  intros [= <-]. cbn [end_date start_date annual_return].
  intros Hspan. rewrite years_positive.
  replace (0 <? _) with false; [reflexivity | ].
  symmetry. apply Z.ltb_ge.
  assert (HD : 0 < NS_PER_DAY) by reflexivity.
  apply Z.lt_succ_r. apply Z.div_lt_upper_bound; [exact HD | lia].
Qed.

Lemma annual_return_guard_witness :
  exists info,
    analyze_data (fun x _ => x)
      [ flat_point (mkTimestamp 2024 1 1 1000) 10;
        flat_point (mkTimestamp 2024 1 1 2000) 20 ] = Return info /\
    annual_return info = Fin 0.
Proof.
  eexists. split; [reflexivity | ].
  refine (annual_return_guard (fun x _ => x)
            [ flat_point (mkTimestamp 2024 1 1 1000) 10;
              flat_point (mkTimestamp 2024 1 1 2000) 20 ] _ _ _).
  - reflexivity.
  - reflexivity.
Defined.

(** ** [run] *)

Lemma run_strategies (granularity : string) :
  exists s rest,
    get_strategies_for_granularity granularity = s :: rest /\
    select_strategies (get_strategies_for_granularity granularity) =
    Return (s :: rest).
Proof.
  destruct (catalogue_cases granularity) as [E | [E | [E | [E | E]]]];
    rewrite E; eexists; eexists; split; reflexivity.
Qed.

Lemma fold_ts_max_In (l : list Timestamp) :
  forall seed, In (fold_left ts_max l seed) (seed :: l).
Proof.
  induction l as [ | a l IH]; intros seed; cbn [fold_left].
  - left. reflexivity.
  - destruct (IH (ts_max seed a)) as [E | Hin];
      [ | right; right; exact Hin].
    rewrite <- E. unfold ts_max.
    destruct (ts_ltb seed a); [right; left | left]; reflexivity.
Qed.

Lemma simulate_without_final_price (self : StockInvestmentAnalyzer)
    (fuel : nat) (data : DataFrame) (start end_ : Timestamp) (amount : Q)
    (frequency : string) :
  (forall p, In p data -> ts_leb (Date p) end_ = false) ->
  simulate_investment self (S fuel) data start end_ amount frequency =
  Some (Raise IndexError).
Proof.
  intros Hnone. unfold simulate_investment.
  rewrite (contribution_loop_no_point self fuel data start end_ amount
             frequency Hnone).
  unfold summarize.
  rewrite (proj2 (filter_nil_iff (fun p => ts_leb (Date p) end_) data) Hnone).
  reflexivity.
Qed.

(** With the default period the end date is the midnight that begins the
    last day of the data.  A frame whose rows all lie on one calendar day,
    after midnight, has no row at or before it: [run] ends with the
    [IndexError] of the final price. *)
Theorem run_single_day_raises (float_pow : xnum -> Q -> xnum)
    (self : StockInvestmentAnalyzer) (fuel : nat) (data : DataFrame)
    (y m d : Z) :
  data <> [] ->
  (forall p, In p data ->
     year (Date p) = y /\ month (Date p) = m /\ day (Date p) = d /\
     0 < nanos (Date p)) ->
  run float_pow self (S fuel) data None None = Some (Propagated IndexError).
Proof.
  intros Hne Hday.
  destruct (analyze_data_returns float_pow data Hne)
    as (first & latest & label & info & Hhd & _ & Ha & _ & He & _).
  pose proof (hd_error_In _ _ Hhd) as Hfirst.
  assert (Hend : to_midnight (end_date info) = mkTimestamp y m d 0).
  { pose proof (fold_ts_max_In (map Date data) (Date first)) as Hin.
    rewrite <- He in Hin.
    assert (Hp : exists p, In p data /\ Date p = end_date info).
    { destruct Hin as [E | Hin].
      - exists first. split; [exact Hfirst | exact E].
      - apply in_map_iff in Hin. destruct Hin as (p & E & Hp).
        exists p. split; [exact Hp | exact E]. }
    destruct Hp as (p & Hp & E). destruct (Hday p Hp) as (Ey & Em & Ed & _).
    unfold to_midnight. rewrite <- E, Ey, Em, Ed. reflexivity. }
  assert (Hnone : forall p, In p data ->
            ts_leb (Date p) (to_midnight (end_date info)) = false).
  { intros p Hp. destruct (Hday p Hp) as (Ey & Em & Ed & Hn).
    rewrite Hend. unfold ts_leb, ts_compare. cbn [year month day nanos].
    rewrite Ey, Em, Ed, !Z.compare_refl.
    replace (nanos (Date p) ?= 0) with Gt
      by (symmetry; apply Z.compare_gt_iff; exact Hn).
    reflexivity. }
  unfold run. rewrite Ha.
  destruct (run_strategies (granularity info))
    as ([[name amount] freq] & rest & _ & ->).
  cbn [simulate_all].
  rewrite (simulate_without_final_price self fuel data _ _ amount freq Hnone).
  reflexivity.
Qed.

Lemma run_single_day_raises_witness :
  run (fun x _ => x) sample_analyzer 1
    [ flat_point (mkTimestamp 2024 1 2 34200000000000) 10;
      flat_point (mkTimestamp 2024 1 2 34260000000000) 11 ] None None =
  Some (Propagated IndexError).
Proof.
  refine (run_single_day_raises (fun x _ => x) sample_analyzer 0 _
            2024 1 2 _ _).
  - discriminate.
  - intros p Hp.
    repeat (destruct Hp as [<- | Hp]); try contradiction;
      cbn; repeat split; lia.
Defined.

Lemma first_round_breaks (self : StockInvestmentAnalyzer) (fuel : nat)
    (data : DataFrame) (start end_ : Timestamp) (amount : Q)
    (frequency : string) :
  (ts_leb start end_ = false \/
   match filter (fun p => ts_geb (Date p) start) data with
   | [] => True
   | first :: _ => ts_gtb (Date first) end_ = true
   end) ->
  contribution_loop self (S fuel) data end_ amount frequency start [] =
  Some (Return []).
Proof.
  intros H. cbn [contribution_loop].
  destruct (ts_leb start end_); [ | reflexivity].
  destruct H as [H | H]; [discriminate | ].
  destruct (filter (fun p => ts_geb (Date p) start) data) as [ | first rest];
    [reflexivity | ].
  rewrite H. reflexivity.
Qed.

Lemma simulate_all_without_contribution (self : StockInvestmentAnalyzer)
    (fuel : nat) (data : DataFrame) (start end_ : Timestamp)
    (strategies : list Strategy) :
  (ts_leb start end_ = false \/
   match filter (fun p => ts_geb (Date p) start) data with
   | [] => True
   | first :: _ => ts_gtb (Date first) end_ = true
   end) ->
  (exists p, In p data /\ ts_leb (Date p) end_ = true) ->
  exists results,
    simulate_all self (S fuel) data start end_ strategies =
      Some (Return results) /\
    length results = length strategies /\
    forall x, In x results -> count (snd x) = 0%nat.
Proof.
  intros Hbreak (p & Hp & Hle).
  induction strategies as [ | [[name amount] freq] rest IH].
  - exists []. repeat split. intros x [].
  - destruct IH as (results & E & Hlen & Hzero).
    cbn [simulate_all]. unfold simulate_investment.
    rewrite (first_round_breaks self fuel data start end_ amount freq Hbreak).
    unfold summarize.
    destruct (filter (fun p => ts_leb (Date p) end_) data) as [ | a l] eqn:Hf;
      [exfalso; exact (filter_not_nil _ data p Hp Hle Hf) | ].
    destruct (exists_last (l := a :: l)) as (front & last & El);
      [discriminate | ].
    rewrite El, py_index_last, E.
    eexists. split; [reflexivity | ].
    split; [cbn [length]; rewrite Hlen; reflexivity | ].
    intros x [<- | Hx]; [reflexivity | apply Hzero; exact Hx].
Qed.

(** When the period makes the first round of the loop break while a row
    lies at or before the end date (a period after the data, for one),
    every strategy comes back without contribution and [run] ends with
    the [ZeroDivisionError] of the first average cost. *)
Theorem run_without_contribution_raises (float_pow : xnum -> Q -> xnum)
    (self : StockInvestmentAnalyzer) (fuel : nat) (data : DataFrame)
    (start end_ : Timestamp) :
  (ts_leb start end_ = false \/
   match filter (fun p => ts_geb (Date p) start) data with
   | [] => True
   | first :: _ => ts_gtb (Date first) end_ = true
   end) ->
  (exists p, In p data /\ ts_leb (Date p) end_ = true) ->
  run float_pow self (S fuel) data (Some start) (Some end_) =
  Some ZeroDivisionError.
Proof.
  intros Hbreak Hrow.
  assert (Hne : data <> []).
  { destruct Hrow as (p & Hp & _). intros ->. exact Hp. }
  destruct (analyze_data_returns float_pow data Hne)
    as (first & latest & label & info & _ & _ & Ha & _).
  unfold run. rewrite Ha.
  destruct (run_strategies (granularity info)) as (s & rest & _ & ->).
  destruct (simulate_all_without_contribution self fuel data start end_
              (s :: rest) Hbreak Hrow) as (results & -> & Hlen & Hzero).
  destruct results as [ | [name r] results]; [discriminate | ].
  cbn [average_costs]. unfold average_cost.
  pose proof (Hzero (name, r) (or_introl eq_refl)) as Hz.
  cbn [snd] in Hz. rewrite Hz. reflexivity.
Qed.

Lemma run_without_contribution_raises_witness :
  run (fun x _ => x) sample_analyzer 1 sample_data
    (Some (midnight 2024 2 1)) (Some (midnight 2024 3 1)) =
  Some ZeroDivisionError.
Proof.
  refine (run_without_contribution_raises (fun x _ => x) sample_analyzer 0
            sample_data (midnight 2024 2 1) (midnight 2024 3 1) _ _).
  - right. exact I.
  - exists (flat_point (midnight 2024 1 1) 10).
    split; [left; reflexivity | reflexivity].
Defined.

Lemma simulate_all_returns (self : StockInvestmentAnalyzer) (fuel : nat)
    (data : DataFrame) (start end_ : Timestamp) (strategies : list Strategy) :
  forall results,
    simulate_all self fuel data start end_ strategies =
      Some (Return results) ->
    map fst results = map strategy_name strategies /\
    forall x, In x results ->
      exists amount freq,
        simulate_investment self fuel data start end_ amount freq =
        Some (Return (snd x)).
Proof.
  induction strategies as [ | [[name amount] freq] rest IH]; intros results H.
  - cbn in H. injection H as <-. split; [reflexivity | intros x []].
  - cbn [simulate_all] in H.
    destruct (simulate_investment self fuel data start end_ amount freq)
      as [[r | e] | ] eqn:Hsim; try discriminate.
    destruct (simulate_all self fuel data start end_ rest)
      as [[results' | e] | ]; try discriminate.
    injection H as <-. destruct (IH results' eq_refl) as (Hnames & Hsims).
    split; [cbn [map]; rewrite Hnames; reflexivity | ].
    intros x [<- | Hx]; [exists amount, freq; exact Hsim | apply Hsims; exact Hx].
Qed.

Lemma average_costs_some (results : list (string * SimulationResult)) :
  forall costs,
    average_costs results = Some costs ->
    length costs = length results /\
    forall x, In x results -> (1 <= count (snd x))%nat.
Proof.
  induction results as [ | [name r] results IH]; intros costs H.
  - cbn in H. injection H as <-. split; [reflexivity | intros x []].
  - cbn [average_costs] in H. unfold average_cost in H.
    destruct (Nat.eqb_spec (count r) 0) as [ | Hpos]; [discriminate | ].
    destruct (average_costs results) as [costs' | ]; [ | discriminate].
    injection H as <-. destruct (IH costs' eq_refl) as (Hlen & Hall).
    split; [cbn [length]; rewrite Hlen; reflexivity | ].
    intros x [<- | Hx]; [cbn [snd]; lia | apply Hall; exact Hx].
Qed.

Lemma scan_by_In {A : Type} (better : xnum -> xnum -> bool) (key : A -> xnum)
    (rest : list A) :
  forall b, In (scan_by better key b rest) (b :: rest).
Proof.
  induction rest as [ | x rest IH]; intros b; cbn [scan_by].
  - left. reflexivity.
  - destruct (better (key x) (key b)).
    + right. apply IH.
    + destruct (IH b) as [E | Hin]; [left; exact E | right; right; exact Hin].
Qed.

(** When [run] completes, its report holds one result and one average cost
    for each strategy of the catalogue, in catalogue order; every strategy
    has made at least one contribution; the best and the worst entry are
    among the results; and the final price printed with the conclusion is
    the final price of every result. *)
Theorem run_completed (float_pow : xnum -> Q -> xnum)
    (self : StockInvestmentAnalyzer) (fuel : nat) (data : DataFrame)
    (start end_ : option Timestamp) (report : RunReport) :
  run float_pow self fuel data start end_ = Some (Completed report) ->
  map fst (report_results report) =
    map strategy_name
      (get_strategies_for_granularity (granularity (report_info report))) /\
  length (report_costs report) = length (report_results report) /\
  In (best (report_conclusion report)) (report_results report) /\
  In (worst (report_conclusion report)) (report_results report) /\
  forall x, In x (report_results report) ->
    (1 <= count (snd x))%nat /\
    final_price (snd x) = reference_final_price (report_conclusion report).
Proof.
  unfold run.
  destruct (analyze_data float_pow data) as [info | e]; [ | discriminate].
  destruct (run_strategies (granularity info)) as (s & rest & Hcat & ->).
  set (start' := match start with Some s0 => s0 | None => _ end).
  set (end' := match end_ with Some e0 => e0 | None => _ end).
  destruct (simulate_all self fuel data start' end' (s :: rest))
    as [[results | e] | ] eqn:Hall; try discriminate.
  destruct (average_costs results) as [costs | ] eqn:Hcosts;
    [ | discriminate].
  destruct (conclude results) as [c | e] eqn:Hc; [ | discriminate].
  intros [= <-]. cbn [report_results report_costs report_conclusion
                      report_info].
  destruct (simulate_all_returns _ _ _ _ _ _ _ Hall) as (Hnames & Hsims).
  destruct (average_costs_some _ _ Hcosts) as (Hlen & Hpos).
  split; [rewrite Hcat; exact Hnames | ]. split; [exact Hlen | ].
  destruct results as [ | x0 results']; [discriminate | ].
  unfold conclude, py_max, py_min in Hc.
  rewrite py_index_first in Hc. injection Hc as <-.
  cbn [best worst reference_final_price].
  split; [apply scan_by_In | ]. split; [apply scan_by_In | ].
  intros x Hx. split; [apply Hpos; exact Hx | ].
  destruct (Hsims x Hx) as (amount & freq & Sx).
  destruct (Hsims x0 (or_introl eq_refl)) as (amount0 & freq0 & S0).
  destruct (simulate_returns _ _ _ _ _ _ _ _ Sx) as (inv & _ & Rx).
  destruct (simulate_returns _ _ _ _ _ _ _ _ S0) as (inv0 & _ & R0).
  destruct (summarize_returns _ _ _ _ _ Rx) as (front & last & Hf & ->).
  destruct (summarize_returns _ _ _ _ _ R0) as (front0 & last0 & Hf0 & ->).
  cbn [final_price]. rewrite Hf in Hf0.
  apply app_inj_tail in Hf0. destruct Hf0 as (_ & <-). reflexivity.
Qed.

Lemma run_completed_witness :
  exists report,
    run (fun x _ => x) sample_analyzer 4 sample_data None None =
      Some (Completed report) /\
    length (report_costs report) = length (report_results report) /\
    forall x, In x (report_results report) ->
      (1 <= count (snd x))%nat /\
      final_price (snd x) = reference_final_price (report_conclusion report).
Proof.
  eexists. split; [reflexivity | ].
  pose proof (run_completed (fun x _ => x) sample_analyzer 4 sample_data
                None None _ eq_refl) as H.
  split; [exact (proj1 (proj2 H)) | exact (proj2 (proj2 (proj2 (proj2 H))))].
Defined.

Lemma returns_nothing_first_round (self : StockInvestmentAnalyzer)
    (fuel : nat) (data : DataFrame) (start end_ : Timestamp) (amount : Q)
    (frequency : string) :
  contribution_loop self fuel data end_ amount frequency start [] =
    Some (Return []) ->
  ts_leb start end_ = false \/
  match filter (fun p => ts_geb (Date p) start) data with
  | [] => True
  | first :: _ => ts_gtb (Date first) end_ = true
  end.
Proof.
  destruct fuel as [ | fuel]; [discriminate | ].
  cbn [contribution_loop].
  destruct (ts_leb start end_); [ | auto].
  destruct (filter (fun p => ts_geb (Date p) start) data) as [ | first rest];
    [auto | ].
  destruct (ts_gtb (Date first) end_); [auto | ].
  intros H. exfalso.
  destruct (advance frequency start) as [current' | ]; [ | discriminate].
  destruct (loop_returns_schedule _ _ _ _ _ _ _ _ _ H) as (chosen & _ & E).
  rewrite E in H. cbn [app] in H. discriminate H.
Qed.

Lemma average_costs_none (results : list (string * SimulationResult)) :
  average_costs results = None ->
  exists x, In x results /\ count (snd x) = 0%nat.
Proof.
  induction results as [ | [name r] results IH]; [discriminate | ].
  cbn [average_costs]. unfold average_cost.
  destruct (Nat.eqb_spec (count r) 0) as [Hz | _].
  - intros _. exists (name, r). split; [left; reflexivity | exact Hz].
  - destruct (average_costs results); [discriminate | ].
    intros _. destruct (IH eq_refl) as (x & Hx & Hz).
    exists x. split; [right; exact Hx | exact Hz].
Qed.

Lemma to_midnight_before (t : Timestamp) :
  valid_ts t ->
  valid_ts (to_midnight t) /\ ts_value (to_midnight t) <= ts_value t.
Proof.
  intros Hv. pose proof Hv as Hs. apply valid_ts_spec in Hs.
  assert (Hm : valid_ts (to_midnight t)).
  { apply valid_ts_spec. unfold to_midnight. cbn [year month day nanos].
    unfold NS_PER_DAY, NS_PER_SECOND. lia. }
  split; [exact Hm | ].
  unfold ts_value, toordinal, to_midnight. cbn [year month day nanos]. lia.
Qed.

Lemma analyze_data_dates (float_pow : xnum -> Q -> xnum) (df : DataFrame) :
  df <> [] ->
  (forall p, In p df -> valid_ts (Date p)) ->
  exists info,
    analyze_data float_pow df = Return info /\
    valid_ts (start_date info) /\ valid_ts (end_date info) /\
    forall p, In p df -> ts_value (start_date info) <= ts_value (Date p).
Proof.
  intros Hne Hvalid.
  destruct (analyze_data_returns float_pow df Hne)
    as (first & latest & label & info & Hhd & _ & Ha & Hs & He & _).
  pose proof (hd_error_In _ _ Hhd) as Hfirst.
  assert (Hdates : forall t, In t (Date first :: map Date df) -> valid_ts t).
  { intros t [<- | Ht]; [apply Hvalid; exact Hfirst | ].
    apply in_map_iff in Ht. destruct Ht as (p & <- & Hp).
    apply Hvalid. exact Hp. }
  destruct (fold_ts_min (map Date df) (Date first) (Hvalid _ Hfirst)
              (fun t Ht => Hdates t (or_intror Ht))) as (Hmin_in & Hmin).
  pose proof (fold_ts_max_In (map Date df) (Date first)) as Hmax_in.
  rewrite <- Hs in Hmin_in, Hmin. rewrite <- He in Hmax_in.
  exists info. split; [exact Ha | ].
  split; [apply Hdates; exact Hmin_in | ].
  split; [apply Hdates; exact Hmax_in | ].
  intros p Hp. apply Hmin. right. apply in_map. exact Hp.
Qed.

(** With the default period, on a frame of valid timestamps whose first row
    is the earliest (the order in which [load_data] hands it over), [run]
    never ends with the [ZeroDivisionError] of an average cost: a strategy
    that comes back at all has made a contribution. *)
Theorem run_default_period_contributes (float_pow : xnum -> Q -> xnum)
    (self : StockInvestmentAnalyzer) (fuel : nat) (data : DataFrame)
    (first : PricePoint) :
  hd_error data = Some first ->
  (forall p, In p data ->
     valid_ts (Date p) /\ ts_leb (Date first) (Date p) = true) ->
  run float_pow self fuel data None None <> Some ZeroDivisionError.
Proof.
  intros Hhd Hrows Hrun.
  assert (Hne : data <> []) by (destruct data; discriminate).
  assert (Hvalid : forall p, In p data -> valid_ts (Date p))
    by (intros p Hp; apply Hrows; exact Hp).
  pose proof (hd_error_In _ _ Hhd) as Hfirst.
  destruct (analyze_data_dates float_pow data Hne Hvalid)
    as (info & Ha & Vmin & Vmax & Hrange).
  unfold run in Hrun. rewrite Ha in Hrun.
  destruct (run_strategies (granularity info)) as (s & rest & _ & E).
  rewrite E in Hrun.
  set (start := to_midnight (start_date info)) in *.
  set (end_ := to_midnight (end_date info)) in *.
  destruct (simulate_all self fuel data start end_ (s :: rest))
    as [[results | e] | ] eqn:Hall; try discriminate.
  destruct (average_costs results) as [costs | ] eqn:Hcosts;
    [destruct (conclude results); discriminate | ].
  clear Hrun.
  destruct (average_costs_none _ Hcosts) as (x & Hx & Hzero).
  destruct (simulate_all_returns _ _ _ _ _ _ _ Hall) as (_ & Hsims).
  destruct (Hsims x Hx) as (amount & freq & Sx).
  destruct (simulate_returns _ _ _ _ _ _ _ _ Sx) as (inv & Hloop & Rx).
  destruct (summarize_returns _ _ _ _ _ Rx) as (front & last & Hf & Er).
  rewrite Er in Hzero. cbn [count] in Hzero.
  destruct inv; [ | discriminate].
  (* a row at or before the end date *)
  assert (Hlast : In last data /\ ts_leb (Date last) end_ = true).
  { assert (H : In last (front ++ [last]))
      by (apply in_or_app; right; left; reflexivity).
    rewrite <- Hf in H. apply filter_In in H. exact H. }
  destruct Hlast as (Hlast & Hlast_le).
  destruct (to_midnight_before _ Vmin) as (Vstart & Bstart).
  destruct (to_midnight_before _ Vmax) as (Vend & _).
  fold start in Vstart, Bstart. fold end_ in Vend.
  destruct (Hrows first Hfirst) as (Vfirst & _).
  destruct (Hrows last Hlast) as (Vlast & Hfl).
  rewrite (ts_leb_value _ _ Vfirst Vlast) in Hfl. apply Z.leb_le in Hfl.
  rewrite (ts_leb_value _ _ Vlast Vend) in Hlast_le.
  apply Z.leb_le in Hlast_le.
  pose proof (Hrange first Hfirst) as Hsf.
  (* the first round cannot break *)
  destruct (returns_nothing_first_round _ _ _ _ _ _ _ Hloop) as [Hb | Hb].
  - rewrite (ts_leb_value _ _ Vstart Vend) in Hb. apply Z.leb_gt in Hb. lia.
  - destruct data as [ | p0 data']; [discriminate | ].
    cbn in Hhd. injection Hhd as ->.
    cbn [filter] in Hb.
    replace (ts_geb (Date first) start) with true in Hb.
    2:{ symmetry. unfold ts_geb. rewrite (ts_leb_value _ _ Vstart Vfirst).
        apply Z.leb_le. lia. }
    rewrite ts_gtb_negb_leb, (ts_leb_value _ _ Vfirst Vend) in Hb.
    apply negb_true_iff in Hb. apply Z.leb_gt in Hb. lia.
Qed.

Lemma run_default_period_contributes_witness :
  run (fun x _ => x) sample_analyzer 4 sample_data None None <>
  Some ZeroDivisionError.
Proof.
  refine (run_default_period_contributes (fun x _ => x) sample_analyzer 4
            sample_data (flat_point (midnight 2024 1 1) 10) _ _).
  - reflexivity.
  - intros p Hp. split; [apply (proj1 (sample_data_flat p Hp)) | ].
    unfold sample_data in Hp.
    repeat (destruct Hp as [<- | Hp]); try contradiction; reflexivity.
Defined.
